(** * SimplePlot: a shallow embedding of [SimplePlot.py]

    The module under study is a small builder on top of matplotlib: it gathers
    data series, limits, labels and scale flags, and its [create] method hands
    them to pyplot.  The embedding below follows the Python text method by
    method.

    - Python exceptions are an [outcome]; a method is a state transformer that
      returns the outcome together with the object as it is left behind, so
      that what a raising call has already written stays visible.
    - A Python [float] is a binary64 value, here Rocq's primitive [float]; an
      [int] is a [Z].
    - Calls into pyplot and into [os] are recorded as a list of [event]s.
*)

From Stdlib Require Import ZArith String Ascii List Bool Lia Floats DecimalString.
From stdpp Require Import base option list strings.

Open Scope Z_scope.

(** ** Python values *)

Module Py.

(** The places of [SimplePlot.py] that raise a [RuntimeError].  The message
    text is not modelled; each raise statement has a tag of its own. *)
Inductive site :=
| BadFilenameType      (* check_file_writable: not a str *)
| TitleNotConvertible  (* __init__ *)
| NegativeDpi          (* set_dpi *)
| LabelNotConvertible  (* set_x_label, set_y_label *)
| LogLimits            (* set_x_limits, set_y_limits *)
| XNotSequence | XEmpty | XLengthMismatch               (* set_x_data *)
| YNotSequence | YLengthMismatchX | YLengthMismatchY    (* add_y_data *)
| YListNotSequence | YLabelsNotSequence | YLabelsCount  (* add_y_sets *)
| NoXData | NoYData | NotWritable.                      (* create *)

Inductive exn :=
| RuntimeError (at_ : site)
| TypeError
| ValueError
| OverflowError
| IndexError.

Inductive outcome (A : Type) :=
| Ok (a : A)
| Raise (e : exn).
Arguments Ok {A} a.
Arguments Raise {A} e.

Definition raised {A} (o : outcome A) : bool :=
  match o with Ok _ => false | Raise _ => true end.

(** Numbers: [int] and [float]. *)
Inductive num :=
| Int (z : Z)
| Flt (f : float).

Inductive seq_kind := KList | KTuple.

(** The objects handed to the builder.  A data sequence is a list or a tuple
    of numbers, the only element type the builder is written for. *)
Inductive pyobj :=
| PyNone
| PyBool (b : bool)
| PyNum (n : num)
| PyStr (s : string)
| PySeq (k : seq_kind) (xs : list num).

(** An argument that is itself a list or tuple of objects ([y_list] and
    [y_labels] of [add_y_sets]), or any single object. *)
Inductive pyarg :=
| Obj (o : pyobj)
| ObjSeq (k : seq_kind) (os : list pyobj).

(** [type(x) is list or type(x) is tuple], with the elements when it holds. *)
Definition as_sequence (o : pyobj) : option (list num) :=
  match o with
  | PySeq _ xs => Some xs
  | _ => None
  end.

Definition arg_as_sequence (a : pyarg) : option (list pyobj) :=
  match a with
  | ObjSeq _ os => Some os
  | Obj (PySeq _ xs) => Some (PyNum <$> xs)
  | Obj _ => None
  end.

Definition arg_is_none (a : pyarg) : bool :=
  match a with Obj PyNone => true | _ => false end.

Definition is_none (o : pyobj) : bool :=
  match o with PyNone => true | _ => false end.

(** *** Comparison of numbers

    [int] against [float] is compared exactly, as CPython does, by reading
    the float as sign, mantissa and exponent. *)
Definition cmp_int_float (z : Z) (f : float) : option comparison :=
  match Prim2SF f with
  | S754_nan => None
  | S754_infinity s => Some (if s then Gt else Lt)
  | S754_zero _ => Some (z ?= 0)
  | S754_finite s m e =>
      let v := if s then Z.neg m else Z.pos m in
      Some (if 0 <=? e then z ?= v * 2 ^ e else z * 2 ^ (- e) ?= v)
  end.

(** [a < b] *)
Definition num_lt (a b : num) : bool :=
  match a, b with
  | Int x, Int y => x <? y
  | Flt x, Flt y => PrimFloat.ltb x y
  | Int x, Flt y => match cmp_int_float x y with Some Lt => true | _ => false end
  | Flt x, Int y => match cmp_int_float y x with Some Gt => true | _ => false end
  end.

(** [a > b] *)
Definition num_gt (a b : num) : bool := num_lt b a.

(** The builtin [min]: the first item, replaced by each later item that is
    [<] the current one.  [ValueError] on an empty sequence. *)
Fixpoint min_from (cur : num) (xs : list num) : num :=
  match xs with
  | [] => cur
  | x :: xs' => min_from (if num_lt x cur then x else cur) xs'
  end.

Definition py_min (xs : list num) : outcome num :=
  match xs with
  | [] => Raise ValueError
  | x :: xs' => Ok (min_from x xs')
  end.

(** The builtin [max]: as [min], with [>]. *)
Fixpoint max_from (cur : num) (xs : list num) : num :=
  match xs with
  | [] => cur
  | x :: xs' => max_from (if num_gt x cur then x else cur) xs'
  end.

Definition py_max (xs : list num) : outcome num :=
  match xs with
  | [] => Raise ValueError
  | x :: xs' => Ok (max_from x xs')
  end.

(** [m < bound] and [m > bound] where [bound] is a stored limit: a float, or
    [None], against which an ordering comparison is a [TypeError]. *)
Definition lt_bound (m : num) (bound : option float) : outcome bool :=
  match bound with
  | Some b => Ok (num_lt m (Flt b))
  | None => Raise TypeError
  end.

Definition gt_bound (m : num) (bound : option float) : outcome bool :=
  match bound with
  | Some b => Ok (num_gt m (Flt b))
  | None => Raise TypeError
  end.

(** *** Conversions *)

(** [float(z)] for an int: round to nearest even; an int beyond the range of
    a double is an [OverflowError]. *)
Definition float_of_int (z : Z) : outcome float :=
  match binary_normalize prec emax z 0 false with
  | S754_infinity _ => Raise OverflowError
  | sf => Ok (SF2Prim sf)
  end.

(** [bool(o)] *)
Definition py_bool (o : pyobj) : bool :=
  match o with
  | PyNone => false
  | PyBool b => b
  | PyNum (Int z) => negb (z =? 0)
  | PyNum (Flt f) => negb (PrimFloat.eqb f 0%float)
  | PyStr s => negb (String.eqb s "")
  | PySeq _ xs => match xs with [] => false | _ => true end
  end.

(** [len(o)] *)
Definition py_len (o : pyobj) : outcome nat :=
  match o with
  | PyStr s => Ok (String.length s)
  | PySeq _ xs => Ok (length xs)
  | PyNone | PyBool _ | PyNum _ => Raise TypeError
  end.

Section Builtins.
(** Two pieces of the Python runtime are taken as given: the parser behind
    [float(str)] ([None] when the text is not a number, a [ValueError]),
    and [repr] of a float. *)
Variable float_of_str : string -> option float.
Variable float_repr : float -> string.

(** [float(o)] *)
Definition py_float (o : pyobj) : outcome float :=
  match o with
  | PyNum (Flt f) => Ok f
  | PyNum (Int z) => float_of_int z
  | PyBool b => Ok (if b then 1%float else 0%float)
  | PyStr s =>
      match float_of_str s with
      | Some f => Ok f
      | None => Raise ValueError
      end
  | PyNone | PySeq _ _ => Raise TypeError
  end.

Definition repr_num (n : num) : string :=
  match n with
  | Int z => NilZero.string_of_int (Z.to_int z)
  | Flt f => float_repr f
  end.

Fixpoint join_comma (ss : list string) : string :=
  match ss with
  | [] => ""
  | [s] => s
  | s :: ss' => s +:+ ", " +:+ join_comma ss'
  end.

(** [f"{o}"] *)
Definition fstring (o : pyobj) : outcome string :=
  match o with
  | PyNone => Ok "None"
  | PyBool b => Ok (if b then "True" else "False")
  | PyNum n => Ok (repr_num n)
  | PyStr s => Ok s
  | PySeq KList xs => Ok ("[" +:+ join_comma (repr_num <$> xs) +:+ "]")
  | PySeq KTuple [x] => Ok ("(" +:+ repr_num x +:+ ",)")
  | PySeq KTuple xs => Ok ("(" +:+ join_comma (repr_num <$> xs) +:+ ")")
  end.
End Builtins.

End Py.
Import Py.

(** ** Methods as state transformers *)

Module Monad.

(** A computation over a state [S]: it returns a value or raises, and in both
    cases leaves a state behind. *)
Definition M (S A : Type) : Type := S → outcome A * S.

Definition ret {S A} (a : A) : M S A := λ s, (Ok a, s).

Definition bind {S A B} (m : M S A) (k : A → M S B) : M S B := λ s,
  match m s with
  | (Ok a, s') => k a s'
  | (Raise e, s') => (Raise e, s')
  end.

Declare Scope M_scope.
Delimit Scope M_scope with M.
Notation "x ← m ; k" := (bind m (λ x, k))
  (at level 20, m at level 100, k at level 200, only parsing) : M_scope.
Notation "m ;; k" := (bind m (λ _, k))
  (at level 100, k at level 200, only parsing, right associativity) : M_scope.
Open Scope M_scope.

Definition raise {S A} (e : exn) : M S A := λ s, (Raise e, s).
Definition get {S} : M S S := λ s, (Ok s, s).
Definition put {S} (s' : S) : M S unit := λ _, (Ok (), s').
Definition modify {S} (f : S → S) : M S unit := λ s, (Ok (), f s).
Definition lift {S A} (o : outcome A) : M S A := λ s, (o, s).

(** [if b: body] *)
Definition when {S} (b : bool) (body : M S unit) : M S unit :=
  if b then body else ret ().

(** [try: body / except Exception: raise e] *)
Definition try_reraise {S A} (body : M S A) (e : exn) : M S A := λ s,
  match body s with
  | (Ok a, s') => (Ok a, s')
  | (Raise _, s') => (Raise e, s')
  end.

(** [for x in xs: body(x)] *)
Fixpoint for_each {S A} (xs : list A) (body : A → M S unit) : M S unit :=
  match xs with
  | [] => ret ()
  | x :: xs' => body x ;; for_each xs' body
  end.

(** [range(n)] *)
Definition range (n : nat) : list nat := seq 0 n.

(** [xs[i]] *)
Definition index {S A} (xs : list A) (i : nat) : M S A :=
  match xs !! i with
  | Some x => ret x
  | None => raise IndexError
  end.

(** Running a computation on one component of a pair of states. *)
Definition on_fst {S T A} (m : M S A) : M (S * T) A := λ st,
  let '(o, s') := m st.1 in (o, (s', st.2)).
Definition on_snd {S T A} (m : M T A) : M (S * T) A := λ st,
  let '(o, t') := m st.2 in (o, (st.1, t')).

Definition outcome_of {S A} (r : outcome A * S) : outcome A := r.1.
Definition state_of {S A} (r : outcome A * S) : S := r.2.

End Monad.
Import Monad.

(** ** The calls that leave the process *)

Definition limits : Type := option float * option float.

Inductive event :=
(* os *)
| OsPathExists (p : string)
| OsPathIsfile (p : string)
| OsAccessW (p : string)
(* matplotlib *)
| PltSubplots
| AxPlot (x y : pyobj) (label : option string)
| AxLegend (handles : nat)
| AxSetXlim (lim : limits)
| AxSetXscaleLog
| AxSetYlim (lim : limits)
| AxSetYscaleLog
| AxSetXlabel (s : string)
| AxSetYlabel (s : string)
| AxSetTitle (s : string)
| AxGrid (color linestyle : pyobj)
| PltSavefig (filename : pyobj) (dpi : num)
| PltShow.

(** The queries of [os]; none of them changes the file system. *)
Definition is_os_query (ev : event) : bool :=
  match ev with
  | OsPathExists _ | OsPathIsfile _ | OsAccessW _ => true
  | _ => false
  end.

Definition emit (ev : event) : M (list event) unit := modify (λ tr, tr ++ [ev]).

(** ** check_file_writable *)

Module OsPath.

Definition sep : ascii := "/"%char.

(** [p[:p.rfind('/') + 1]] *)
Fixpoint upto_last_sep (p : string) : string :=
  match p with
  | EmptyString => EmptyString
  | String c r =>
      match upto_last_sep r with
      | EmptyString => if Ascii.eqb c sep then String c EmptyString else EmptyString
      | h => String c h
      end
  end.

(** [s == '/' * len(s)] *)
Fixpoint all_sep (s : string) : bool :=
  match s with
  | EmptyString => true
  | String c r => Ascii.eqb c sep && all_sep r
  end.

(** [s.rstrip('/')] *)
Fixpoint rstrip_sep (s : string) : string :=
  match s with
  | EmptyString => EmptyString
  | String c r =>
      match rstrip_sep r with
      | EmptyString => if Ascii.eqb c sep then EmptyString else String c EmptyString
      | r' => String c r'
      end
  end.

(** [os.path.dirname] (posixpath) *)
Definition dirname (p : string) : string :=
  let head := upto_last_sep p in
  if negb (String.eqb head "") && negb (all_sep head)
  then rstrip_sep head
  else head.

(** Whether [p] holds a NUL character.  Such a string is no path for the
    operating system: [os.stat] and [os.access] raise [ValueError] for it
    ("embedded null byte"). *)
Fixpoint has_nul (p : string) : bool :=
  match p with
  | EmptyString => false
  | String c r => Ascii.eqb c "000"%char || has_nul r
  end.

(** What the process can observe of the file system, for the paths the
    operating system takes. *)
Record filesystem := {
  exists_ : string → bool;     (* os.path.exists *)
  isfile : string → bool;      (* os.path.isfile *)
  access_W_OK : string → bool  (* os.access(_, os.W_OK) *)
}.

(** [os.path.exists] and [os.path.isfile] (CPython 3.8 and later) catch the
    [ValueError] of [os.stat] and answer [False]; [os.access] lets it out. *)
Definition path_exists (fs : filesystem) (p : string) : M (list event) bool :=
  emit (OsPathExists p) ;;
  if has_nul p then ret false else ret (exists_ fs p).
Definition path_isfile (fs : filesystem) (p : string) : M (list event) bool :=
  emit (OsPathIsfile p) ;;
  if has_nul p then ret false else ret (isfile fs p).
Definition access (fs : filesystem) (p : string) : M (list event) bool :=
  emit (OsAccessW p) ;;
  if has_nul p then raise ValueError else ret (access_W_OK fs p).

End OsPath.

Definition check_file_writable (fs : OsPath.filesystem) (f : pyobj)
  : M (list event) bool :=
  match f with
  | PyStr f =>
      e ← OsPath.path_exists fs f;
      if e then
        r ← OsPath.path_isfile fs f;
        if r then OsPath.access fs f else ret false
      else
        let parent := OsPath.dirname f in
        let parent := if String.eqb parent "" then "."%string else parent in
        OsPath.access fs parent
  | _ => raise (RuntimeError BadFilenameType)
  end.

(** ** class SimplePlot *)

Record SimplePlot := {
  __dpi : num;
  __x_data : option pyobj;
  __y_data : list pyobj;
  __x_label : option string;
  __y_label : option string;
  __title : option string;
  __legend : list (option string);
  __y_limits : limits;
  __x_limits : limits;
  __log_x : bool;
  __log_y : bool;
  __grid : option (pyobj * pyobj)
}.

(** Assignment to one attribute. *)
Definition with_dpi (v : num) (o : SimplePlot) : SimplePlot :=
  {| __dpi := v; __x_data := __x_data o; __y_data := __y_data o;
     __x_label := __x_label o; __y_label := __y_label o; __title := __title o;
     __legend := __legend o; __y_limits := __y_limits o;
     __x_limits := __x_limits o; __log_x := __log_x o; __log_y := __log_y o;
     __grid := __grid o |}.
Definition with_x_data (v : option pyobj) (o : SimplePlot) : SimplePlot :=
  {| __dpi := __dpi o; __x_data := v; __y_data := __y_data o;
     __x_label := __x_label o; __y_label := __y_label o; __title := __title o;
     __legend := __legend o; __y_limits := __y_limits o;
     __x_limits := __x_limits o; __log_x := __log_x o; __log_y := __log_y o;
     __grid := __grid o |}.
Definition with_y_data (v : list pyobj) (o : SimplePlot) : SimplePlot :=
  {| __dpi := __dpi o; __x_data := __x_data o; __y_data := v;
     __x_label := __x_label o; __y_label := __y_label o; __title := __title o;
     __legend := __legend o; __y_limits := __y_limits o;
     __x_limits := __x_limits o; __log_x := __log_x o; __log_y := __log_y o;
     __grid := __grid o |}.
Definition with_x_label (v : option string) (o : SimplePlot) : SimplePlot :=
  {| __dpi := __dpi o; __x_data := __x_data o; __y_data := __y_data o;
     __x_label := v; __y_label := __y_label o; __title := __title o;
     __legend := __legend o; __y_limits := __y_limits o;
     __x_limits := __x_limits o; __log_x := __log_x o; __log_y := __log_y o;
     __grid := __grid o |}.
Definition with_y_label (v : option string) (o : SimplePlot) : SimplePlot :=
  {| __dpi := __dpi o; __x_data := __x_data o; __y_data := __y_data o;
     __x_label := __x_label o; __y_label := v; __title := __title o;
     __legend := __legend o; __y_limits := __y_limits o;
     __x_limits := __x_limits o; __log_x := __log_x o; __log_y := __log_y o;
     __grid := __grid o |}.
Definition with_legend (v : list (option string)) (o : SimplePlot) : SimplePlot :=
  {| __dpi := __dpi o; __x_data := __x_data o; __y_data := __y_data o;
     __x_label := __x_label o; __y_label := __y_label o; __title := __title o;
     __legend := v; __y_limits := __y_limits o;
     __x_limits := __x_limits o; __log_x := __log_x o; __log_y := __log_y o;
     __grid := __grid o |}.
Definition with_y_limits (v : limits) (o : SimplePlot) : SimplePlot :=
  {| __dpi := __dpi o; __x_data := __x_data o; __y_data := __y_data o;
     __x_label := __x_label o; __y_label := __y_label o; __title := __title o;
     __legend := __legend o; __y_limits := v;
     __x_limits := __x_limits o; __log_x := __log_x o; __log_y := __log_y o;
     __grid := __grid o |}.
Definition with_x_limits (v : limits) (o : SimplePlot) : SimplePlot :=
  {| __dpi := __dpi o; __x_data := __x_data o; __y_data := __y_data o;
     __x_label := __x_label o; __y_label := __y_label o; __title := __title o;
     __legend := __legend o; __y_limits := __y_limits o;
     __x_limits := v; __log_x := __log_x o; __log_y := __log_y o;
     __grid := __grid o |}.
Definition with_log_x (v : bool) (o : SimplePlot) : SimplePlot :=
  {| __dpi := __dpi o; __x_data := __x_data o; __y_data := __y_data o;
     __x_label := __x_label o; __y_label := __y_label o; __title := __title o;
     __legend := __legend o; __y_limits := __y_limits o;
     __x_limits := __x_limits o; __log_x := v; __log_y := __log_y o;
     __grid := __grid o |}.
Definition with_log_y (v : bool) (o : SimplePlot) : SimplePlot :=
  {| __dpi := __dpi o; __x_data := __x_data o; __y_data := __y_data o;
     __x_label := __x_label o; __y_label := __y_label o; __title := __title o;
     __legend := __legend o; __y_limits := __y_limits o;
     __x_limits := __x_limits o; __log_x := __log_x o; __log_y := v;
     __grid := __grid o |}.
Definition with_grid (v : option (pyobj * pyobj)) (o : SimplePlot) : SimplePlot :=
  {| __dpi := __dpi o; __x_data := __x_data o; __y_data := __y_data o;
     __x_label := __x_label o; __y_label := __y_label o; __title := __title o;
     __legend := __legend o; __y_limits := __y_limits o;
     __x_limits := __x_limits o; __log_x := __log_x o; __log_y := __log_y o;
     __grid := v |}.

(** A keyword argument: [None] when the caller leaves it out. *)
Definition kwarg {A} (dflt : A) (a : option A) : A := default dflt a.

Section Methods.
Variable float_of_str : string → option float.
Variable float_repr : float → string.

(** [__init__(self, title=None)] *)
Definition init (title : option pyobj) : outcome SimplePlot :=
  let title := kwarg PyNone title in
  let conv : M unit (option string) :=
    if negb (is_none title)
    then t ← try_reraise (lift (fstring float_repr title))
               (RuntimeError TitleNotConvertible);
         ret (Some t)
    else ret None in
  match conv () with
  | (Raise e, _) => Raise e
  | (Ok title, _) =>
      Ok {| __dpi := Int 1200;
            __x_data := None;
            __y_data := [];
            __x_label := None;
            __y_label := None;
            __title := title;
            __legend := [];
            __y_limits := (Some 0%float, None);
            __x_limits := (None, None);
            __log_x := false;
            __log_y := false;
            __grid := None |}
  end.

(** [set_dpi(self, dpi)] *)
Definition set_dpi (dpi : pyobj) : M SimplePlot unit :=
  dpi ← lift (py_float float_of_str dpi);
  when (PrimFloat.leb dpi 0%float) (raise (RuntimeError NegativeDpi));;
  modify (with_dpi (Flt dpi)).

(** [set_grid(self, color='darkgray', style='--')] *)
Definition set_grid (color style : option pyobj) : M SimplePlot unit :=
  let color := kwarg (PyStr "darkgray") color in
  let style := kwarg (PyStr "--") style in
  if is_none color
  then modify (with_grid None)
  else modify (with_grid (Some (color, style))).

(** The conversion shared by [set_x_label] and [set_y_label]: [None] and a
    [str] are kept, anything else goes through [f"{label}"]. *)
Definition convert_label (label : pyobj) : M SimplePlot (option string) :=
  match label with
  | PyNone => ret None
  | PyStr s => ret (Some s)
  | _ => s ← try_reraise (lift (fstring float_repr label))
               (RuntimeError LabelNotConvertible);
         ret (Some s)
  end.

(** [set_x_label(self, label)] *)
Definition set_x_label (label : pyobj) : M SimplePlot unit :=
  label ← convert_label label;
  modify (with_x_label label).

(** [set_y_label(self, label)] *)
Definition set_y_label (label : pyobj) : M SimplePlot unit :=
  label ← convert_label label;
  modify (with_y_label label).

(** [if b is not None: b = float(b)] *)
Definition coerce_bound (b : pyobj) : M SimplePlot (option float) :=
  if negb (is_none b)
  then f ← lift (py_float float_of_str b); ret (Some f)
  else ret None.

(** [set_x_limits(self, xmin=None, xmax=None)].  The last statement of the
    source assigns [self.__y_limits]. *)
Definition set_x_limits (xmin xmax : option pyobj) : M SimplePlot unit :=
  let xmin := kwarg PyNone xmin in
  let xmax := kwarg PyNone xmax in
  self ← get;
  when (__log_x self) (raise (RuntimeError LogLimits));;
  xmin ← coerce_bound xmin;
  xmax ← coerce_bound xmax;
  modify (with_y_limits (xmin, xmax)).

(** [set_y_limits(self, ymin=0.0, ymax=None)] *)
Definition set_y_limits (ymin ymax : option pyobj) : M SimplePlot unit :=
  let ymin := kwarg (PyNum (Flt 0%float)) ymin in
  let ymax := kwarg PyNone ymax in
  self ← get;
  when (__log_y self) (raise (RuntimeError LogLimits));;
  ymin ← coerce_bound ymin;
  ymax ← coerce_bound ymax;
  modify (with_y_limits (ymin, ymax)).

(** [save(self, filename)]: [pass] *)
Definition save (filename : pyobj) : M SimplePlot unit := ret ().

(** [set_x_data(self, x_data)] *)
Definition set_x_data (x_data : pyobj) : M SimplePlot unit :=
  match as_sequence x_data with
  | None => raise (RuntimeError XNotSequence)
  | Some xs =>
      when (length xs <=? 0)%nat (raise (RuntimeError XEmpty));;
      self ← get;
      match __y_data self with
      | y0 :: _ =>
          n ← lift (py_len y0);
          when (negb (length xs =? n)%nat) (raise (RuntimeError XLengthMismatch))
      | [] => ret ()
      end;;
      self ← get;
      match (__x_limits self).1 with
      | Some lo =>
          m ← lift (py_min xs);
          when (num_lt m (Flt lo))
            (modify (with_x_limits (None, (__x_limits self).2)))
      | None => ret ()
      end;;
      self ← get;
      match (__x_limits self).2 with
      | Some _ =>
          m ← lift (py_max xs);
          above ← lift (gt_bound m (__x_limits self).1);
          when above (modify (with_x_limits ((__x_limits self).1, None)))
      | None => ret ()
      end;;
      modify (with_x_data (Some x_data))
  end.

(** [add_y_data(self, y_data, label=None)] *)
Definition add_y_data (y_data : pyobj) (label : option pyobj)
  : M SimplePlot unit :=
  let label := kwarg PyNone label in
  match as_sequence y_data with
  | None => raise (RuntimeError YNotSequence)
  | Some ys =>
      self ← get;
      match __x_data self with
      | Some x =>
          n ← lift (py_len x);
          when (negb (length ys =? n)%nat)
            (raise (RuntimeError YLengthMismatchX))
      | None =>
          match __y_data self with
          | y0 :: _ =>
              n ← lift (py_len y0);
              when (negb (length ys =? n)%nat)
                (raise (RuntimeError YLengthMismatchY))
          | [] => ret ()
          end
      end;;
      label ← (if negb (is_none label)
               then s ← lift (fstring float_repr label); ret (Some s)
               else ret None);
      self ← get;
      match (__y_limits self).1 with
      | Some lo =>
          m ← lift (py_min ys);
          when (num_lt m (Flt lo))
            (modify (with_y_limits (None, (__y_limits self).2)))
      | None => ret ()
      end;;
      self ← get;
      match (__y_limits self).2 with
      | Some _ =>
          m ← lift (py_max ys);
          above ← lift (gt_bound m (__y_limits self).1);
          when above (modify (with_y_limits ((__y_limits self).1, None)))
      | None => ret ()
      end;;
      modify (λ self, with_legend (__legend self ++ [label]) self);;
      modify (λ self, with_y_data (__y_data self ++ [y_data]) self)
  end.

(** [add_y_sets(self, y_list, y_labels=None)] *)
Definition add_y_sets (y_list : pyarg) (y_labels : option pyarg)
  : M SimplePlot unit :=
  let y_labels := kwarg (Obj PyNone) y_labels in
  match arg_as_sequence y_list with
  | None => raise (RuntimeError YListNotSequence)
  | Some ys =>
      labels ← (if negb (arg_is_none y_labels)
                then match arg_as_sequence y_labels with
                     | None => raise (RuntimeError YLabelsNotSequence)
                     | Some ls =>
                         when (negb (length ls =? length ys)%nat)
                           (raise (RuntimeError YLabelsCount));;
                         ret (Some ls)
                     end
                else ret None);
      for_each (range (length ys)) (λ i,
        label ← match labels with
                | Some ls => index ls i
                | None => ret PyNone
                end;
        y ← index ys i;
        add_y_data y (Some label))
  end.

(** [set_log_scale(self, x=False, y=False)] *)
Definition set_log_scale (x y : option pyobj) : M SimplePlot unit :=
  let x := py_bool (kwarg (PyBool false) x) in
  let y := py_bool (kwarg (PyBool false) y) in
  modify (with_log_x x);;
  modify (with_log_y y);;
  when x (modify (with_x_limits (None, None)));;
  when y (modify (with_y_limits (None, None))).

(** [for i in range(len(self.__legend)): if self.__legend[i] is None:
    self.__legend[i] = ''] *)
Definition blank_missing_labels : M SimplePlot unit :=
  self ← get;
  for_each (range (length (__legend self))) (λ i,
    self ← get;
    l ← index (__legend self) i;
    when (bool_decide (l = None))
      (modify (with_legend (<[i := Some ""%string]> (__legend self))))).

(** [for i in range(len(self.__y_data)): l, = ax.plot(...); lines.append(l)].
    The state is the object, the calls made so far and the number of entries
    of [lines]. *)
Definition plot_lines (x : pyobj) : M (SimplePlot * list event * nat) unit :=
  st ← get;
  for_each (range (length (__y_data st.1.1))) (λ i,
    on_fst (
      self ← on_fst get;
      y ← index (__y_data self) i;
      label ← index (__legend self) i;
      on_snd (emit (AxPlot x y label)));;
    on_snd (modify S)).

(** [lines = []] before a block of statements; the block's value is the
    number of entries it has appended. *)
Definition with_lines {A} (body : M (SimplePlot * list event * nat) A)
  : M (SimplePlot * list event) nat := λ st,
  match body (st, 0%nat) with
  | (Ok _, (st', n)) => (Ok n, st')
  | (Raise e, (st', _)) => (Raise e, st')
  end.

(** [create(self, filename=None)].  [self.__y_data] is always a list, so the
    second test of the source ([self.__y_data is None]) never fires. *)
Definition create (fs : OsPath.filesystem) (filename : option pyobj)
  : M (SimplePlot * list event) unit :=
  let filename := kwarg PyNone filename in
  self ← on_fst get;
  match __x_data self with
  | None => raise (RuntimeError NoXData)
  | Some x =>
      (if negb (is_none filename)
       then writable ← on_snd (check_file_writable fs filename);
            when (negb writable) (raise (RuntimeError NotWritable))
       else ret ());;
      let use_legend := existsb (λ l, bool_decide (l ≠ None)) (__legend self) in
      on_fst blank_missing_labels;;
      on_snd (emit PltSubplots);;
      lines ← with_lines (plot_lines x);
      self ← on_fst get;
      on_snd (
        when use_legend (emit (AxLegend lines));;
        (if negb (__log_x self)
         then emit (AxSetXlim (__x_limits self))
         else emit AxSetXscaleLog);;
        (if negb (__log_y self)
         then emit (AxSetYlim (__y_limits self))
         else emit AxSetYscaleLog);;
        match __x_label self with
        | Some l => emit (AxSetXlabel l)
        | None => ret ()
        end;;
        match __y_label self with
        | Some l => emit (AxSetYlabel l)
        | None => ret ()
        end;;
        match __title self with
        | Some t => emit (AxSetTitle t)
        | None => ret ()
        end;;
        match __grid self with
        | Some (color, style) => emit (AxGrid color style)
        | None => ret ()
        end;;
        if negb (is_none filename)
        then emit (PltSavefig filename (__dpi self))
        else emit PltShow)
  end.

End Methods.

(** ** Clients *)

(** One call on a builder.  [Create] carries the file system as it is at the
    time of the call. *)
Inductive call :=
| SetDpi (dpi : pyobj)
| SetGrid (color style : option pyobj)
| SetXLabel (label : pyobj)
| SetYLabel (label : pyobj)
| SetXLimits (xmin xmax : option pyobj)
| SetYLimits (ymin ymax : option pyobj)
| Save (filename : pyobj)
| SetXData (x_data : pyobj)
| AddYData (y_data : pyobj) (label : option pyobj)
| AddYSets (y_list : pyarg) (y_labels : option pyarg)
| SetLogScale (x y : option pyobj)
| Create (fs : OsPath.filesystem) (filename : option pyobj).

Definition is_set_x_data (c : call) : bool :=
  match c with SetXData _ => true | _ => false end.

Section Clients.
Variable float_of_str : string → option float.
Variable float_repr : float → string.

Definition exec (c : call) : M (SimplePlot * list event) unit :=
  match c with
  | SetDpi dpi => on_fst (set_dpi float_of_str dpi)
  | SetGrid color style => on_fst (set_grid color style)
  | SetXLabel label => on_fst (set_x_label float_repr label)
  | SetYLabel label => on_fst (set_y_label float_repr label)
  | SetXLimits xmin xmax => on_fst (set_x_limits float_of_str xmin xmax)
  | SetYLimits ymin ymax => on_fst (set_y_limits float_of_str ymin ymax)
  | Save filename => on_fst (save filename)
  | SetXData x_data => on_fst (set_x_data x_data)
  | AddYData y_data label => on_fst (add_y_data float_repr y_data label)
  | AddYSets y_list y_labels => on_fst (add_y_sets float_repr y_list y_labels)
  | SetLogScale x y => on_fst (set_log_scale x y)
  | Create fs filename => create fs filename
  end.

(** A client that makes the calls one after the other and goes on after an
    exception: every call starts from what the previous one left behind. *)
Fixpoint session (cs : list call) (w : SimplePlot * list event)
  : SimplePlot * list event :=
  match cs with
  | [] => w
  | c :: cs' => session cs' (state_of (exec c w))
  end.

(** A script without exception handling: it stops at the first exception. *)
Definition script (cs : list call) : M (SimplePlot * list event) unit :=
  for_each cs exec.

End Clients.

(** [SimplePlot()] *)
Definition blank_plot : SimplePlot :=
  {| __dpi := Int 1200;
     __x_data := None;
     __y_data := [];
     __x_label := None;
     __y_label := None;
     __title := None;
     __legend := [];
     __y_limits := (Some 0%float, None);
     __x_limits := (None, None);
     __log_x := false;
     __log_y := false;
     __grid := None |}.

(** ** Reading the behaviour the way the documentation words it *)

(** What [create] leaves in the label list: an unset label as empty text. *)
Definition display_label (l : option string) : option string :=
  match l with
  | None => Some ""%string
  | Some s => Some s
  end.

(** Whether [evs] contains the call that draws the legend. *)
Definition draws_legend (evs : list event) : bool :=
  existsb (λ ev, match ev with AxLegend _ => true | _ => false end) evs.

Fixpoint has_sep (p : string) : bool :=
  match p with
  | EmptyString => false
  | String c r => Ascii.eqb c OsPath.sep || has_sep r
  end.

(** The writability check in the words of its description: an existing path
    is writable when it is a regular file the process may write; a missing
    one when its parent directory is, the current directory standing in for
    a path without a parent component.  A string with a NUL character names
    nothing that exists. *)
Definition writable_as_described (fs : OsPath.filesystem) (p : string) : bool :=
  if negb (OsPath.has_nul p) && OsPath.exists_ fs p
  then OsPath.isfile fs p && OsPath.access_W_OK fs p
  else OsPath.access_W_OK fs (if has_sep p then OsPath.dirname p else "."%string).

(** The bulk accumulator in the words of its description: one single-series
    call per entry, in order, each with its own label. *)
Definition add_one_by_one (float_repr : float → string)
    (entries : list (pyobj * pyobj)) : M SimplePlot unit :=
  for_each entries (λ e, add_y_data float_repr e.1 (Some e.2)).

(** [0 < d], for a stored resolution. *)
Definition strictly_positive (d : num) : bool := num_lt (Int 0) d.

(** ** Worked inputs *)

(** A stand-in for the runtime's [float(str)], enough for the examples. *)
Definition sample_float_of_str (s : string) : option float :=
  if String.eqb s "nan" then Some nan
  else if String.eqb s "300" then Some 300%float
  else None.

(** A stand-in for [repr] of a float. *)
Definition sample_float_repr (f : float) : string :=
  if PrimFloat.eqb f 1%float then "1.0" else "<float>".

(** A file system in which nothing exists and every directory is writable. *)
Definition empty_fs : OsPath.filesystem :=
  {| OsPath.exists_ := λ _, false;
     OsPath.isfile := λ _, false;
     OsPath.access_W_OK := λ _, true |}.

(** ** Properties of state transformers *)

(** [m] leaves the component [f] of the state alone, whatever it returns. *)
Definition keeps {S A B} (f : S → B) (m : M S A) : Prop :=
  ∀ s, f (m s).2 = f s.

(** [m] only adds calls to the end of the record, all of them in [P]. *)
Definition appends {A} (P : event → bool) (m : M (list event) A) : Prop :=
  ∀ tr, ∃ evs, (m tr).2 = tr ++ evs ∧ forallb P evs = true.

Definition not_legend (ev : event) : bool :=
  match ev with AxLegend _ => false | _ => true end.

(** ** The shape of a builder *)

(** [o] is a list or a tuple of [n] numbers. *)
Definition is_series (n : nat) (o : pyobj) : Prop :=
  ∃ xs, as_sequence o = Some xs ∧ length xs = n.

(** One label per series. *)
Definition parallel_lists (s : SimplePlot) : Prop :=
  length (__legend s) = length (__y_data s).

(** All the series have one length, which is that of the X series, itself
    not empty, when there is one. *)
Definition same_lengths (s : SimplePlot) : Prop :=
  ∃ n, Forall (is_series n) (__y_data s) ∧
       match __x_data s with
       | Some x => (0 < n)%nat ∧ is_series n x
       | None => True
       end.

(** A stored resolution [d] for which [d <= 0] is false. *)
Definition dpi_ok (d : num) : bool :=
  match d with
  | Int z => 0 <? z
  | Flt f => negb (PrimFloat.leb f 0%float)
  end.

Definition well_formed (s : SimplePlot) : Prop :=
  parallel_lists s ∧ same_lengths s ∧
  __x_limits s = (None, None) ∧ dpi_ok (__dpi s) = true.

(** ** When the data methods accept their argument *)

(** [set_x_data]: a list or tuple, not empty, as long as the first series
    when there is one. *)
Definition accepts_x (s : SimplePlot) (x : pyobj) : bool :=
  match as_sequence x with
  | None => false
  | Some xs =>
      negb (length xs =? 0)%nat &&
      match __y_data s with
      | [] => true
      | y0 :: _ =>
          match py_len y0 with
          | Ok n => (length xs =? n)%nat
          | Raise _ => false
          end
      end
  end.

(** The length that [add_y_data] asks for: that of the X series, or of the
    first series when there is no X series yet. *)
Definition length_fits (s : SimplePlot) (ys : list num) : bool :=
  match __x_data s, __y_data s with
  | Some x, _ | None, x :: _ =>
      match py_len x with
      | Ok n => (length ys =? n)%nat
      | Raise _ => false
      end
  | None, [] => true
  end.

(** [add_y_data]: a list or tuple of the right length; with a lower Y bound
    it must not be empty; with an upper Y bound there must also be a lower
    bound, and no item below it. *)
Definition accepts_y (s : SimplePlot) (y : pyobj) : bool :=
  match as_sequence y with
  | None => false
  | Some ys =>
      length_fits s ys &&
      match __y_limits s with
      | (None, None) => true
      | (Some _, None) => negb (length ys =? 0)%nat
      | (None, Some _) => false
      | (Some lo, Some _) =>
          match py_min ys with
          | Ok m => negb (num_lt m (Flt lo))
          | Raise _ => false
          end
      end
  end.

(** The label [add_y_data] stores for the argument [label]. *)
Definition stored_label (float_repr : float → string) (label : option pyobj)
  : option string :=
  match kwarg PyNone label with
  | PyNone => None
  | o => match fstring float_repr o with Ok t => Some t | Raise _ => None end
  end.

(** ** Kinds of calls and arguments *)

(** The calls that deal with neither the data nor the rendering. *)
Definition is_plain_setter (c : call) : bool :=
  match c with
  | SetDpi _ | SetGrid _ _ | SetXLabel _ | SetYLabel _
  | SetXLimits _ _ | SetYLimits _ _ | Save _ | SetLogScale _ _ => true
  | SetXData _ | AddYData _ _ | AddYSets _ _ | Create _ _ => false
  end.

(** A text argument: a [str], or [None] when there is none. *)
Definition text (t : option string) : pyobj := from_option PyStr PyNone t.

(** * Proofs *)

Ltac mrun :=
  repeat (unfold bind, ret, raise, get, put, modify, lift, when, on_fst, on_snd,
            try_reraise, kwarg, state_of, outcome_of in *; simpl in * ).

(** Case analysis on a test of the program that is not itself the result of
    another test. *)
Ltac split_test :=
  match goal with
  | |- context [match ?e with _ => _ end] =>
      lazymatch e with
      | context [match _ with _ => _ end] => fail
      | _ => destruct e eqn:?
      end
  end.
Ltac run_cases := mrun; repeat (split_test; mrun).

(** ** The monad *)

Lemma bind_unfold {S A B} (m : M S A) (k : A → M S B) s :
  bind m k s = match m s with
               | (Ok a, s') => k a s'
               | (Raise e, s') => (Raise e, s')
               end.
Proof. reflexivity. Qed.

Lemma bind_ret {S A B} (a : A) (k : A → M S B) s : bind (ret a) k s = k a s.
Proof. reflexivity. Qed.

Lemma index_middle {S A} (pre post : list A) (x : A) (i : nat) :
  i = length pre → index (S := S) (pre ++ x :: post) i = ret x.
Proof. intros ->. unfold index. now rewrite list_lookup_middle. Qed.

Lemma for_each_app {S A} (xs ys : list A) (body : A → M S unit) s :
  for_each (xs ++ ys) body s
  = (for_each xs body ;; for_each ys body) s.
Proof.
  revert s. induction xs as [|x xs IH]; intros s; simpl; [reflexivity|].
  rewrite !bind_unfold. destruct (body x s) as [[[]|e] s1]; [|reflexivity].
  rewrite IH. reflexivity.
Qed.

Lemma on_fst_state {S T A} (m : M S A) (w : S * T) :
  (state_of (on_fst m w)).1 = (m w.1).2.
Proof. unfold state_of, on_fst. now destruct (m w.1). Qed.

Section Keeps.
Context {S B : Type} (f : S → B).

Lemma keeps_ret {A} (a : A) : keeps f (ret a).
Proof. done. Qed.

Lemma keeps_raise {A} e : keeps f (raise (A := A) e).
Proof. done. Qed.

Lemma keeps_get : keeps f get.
Proof. done. Qed.

Lemma keeps_lift {A} (o : outcome A) : keeps f (lift o).
Proof. done. Qed.

Lemma keeps_modify (g : S → S) : (∀ s, f (g s) = f s) → keeps f (modify g).
Proof. intros H s. apply H. Qed.

Lemma keeps_bind {A C} (m : M S A) (k : A → M S C) :
  keeps f m → (∀ a, keeps f (k a)) → keeps f (bind m k).
Proof.
  intros Hm Hk s. unfold bind. specialize (Hm s).
  destruct (m s) as [[a|e] s1]; simpl in *; [|done].
  now rewrite Hk.
Qed.

Lemma keeps_when b (m : M S unit) : keeps f m → keeps f (when b m).
Proof. destruct b; [done|]. intros _. apply keeps_ret. Qed.

Lemma keeps_try_reraise {A} (m : M S A) e :
  keeps f m → keeps f (try_reraise m e).
Proof.
  intros Hm s. unfold try_reraise. specialize (Hm s).
  now destruct (m s) as [[a|e'] s1].
Qed.

Lemma keeps_index {A} (xs : list A) i : keeps f (index xs i).
Proof. unfold index. destruct (xs !! i); [apply keeps_ret|apply keeps_raise]. Qed.

Lemma keeps_for_each {A} (xs : list A) (body : A → M S unit) :
  (∀ a, keeps f (body a)) → keeps f (for_each xs body).
Proof.
  intros Hbody. induction xs as [|a xs IH]; simpl; [apply keeps_ret|].
  apply keeps_bind; auto.
Qed.
End Keeps.

Ltac keeps_step :=
  first
    [ apply keeps_ret | apply keeps_raise | apply keeps_get | apply keeps_lift
    | apply keeps_index
    | apply keeps_modify; intros; reflexivity
    | apply keeps_when
    | apply keeps_try_reraise
    | apply keeps_for_each; intros
    | apply keeps_bind; [|intros]
    | match goal with
      | |- keeps _ (match ?e with _ => _ end) => destruct e
      | |- keeps _ (let _ := _ in _) => cbv zeta
      end ].
Ltac keeps_auto := repeat keeps_step.

Section Appends.
Context (P : event → bool).

Lemma appends_ret {A} (a : A) : appends P (ret a).
Proof. intros tr. exists []. now rewrite app_nil_r. Qed.

Lemma appends_raise {A} e : appends P (raise (A := A) e).
Proof. intros tr. exists []. now rewrite app_nil_r. Qed.

Lemma appends_emit ev : P ev = true → appends P (emit ev).
Proof. intros H tr. exists [ev]. simpl. now rewrite H. Qed.

Lemma appends_bind {A B} (m : M (list event) A) (k : A → M (list event) B) :
  appends P m → (∀ a, appends P (k a)) → appends P (bind m k).
Proof.
  intros Hm Hk tr. rewrite bind_unfold. destruct (Hm tr) as (e1 & E1 & H1).
  destruct (m tr) as [[a|e] tr1]; simpl in E1; subst tr1; [|eauto].
  destruct (Hk a (tr ++ e1)) as (e2 & E2 & H2). exists (e1 ++ e2).
  now rewrite E2, app_assoc, forallb_app, H1, H2.
Qed.

Lemma appends_when b (m : M (list event) unit) :
  appends P m → appends P (when b m).
Proof. destruct b; [done|]. intros _. apply appends_ret. Qed.

Lemma on_snd_appends {S A} (m : M (list event) A) :
  appends P m →
  ∀ (s : S) tr, ∃ o evs,
    on_snd m (s, tr) = (o, (s, tr ++ evs)) ∧ forallb P evs = true.
Proof.
  intros Hm s tr. destruct (Hm tr) as (evs & E & H).
  unfold on_snd. simpl. destruct (m tr) as [o tr1]. simpl in E. subst tr1. eauto.
Qed.
End Appends.

Ltac appends_step :=
  first
    [ apply appends_ret | apply appends_raise
    | apply appends_emit; reflexivity
    | apply appends_when
    | apply appends_bind; [|intros]
    | match goal with
      | |- appends _ (match ?e with _ => _ end) => destruct e
      | |- appends _ (let _ := _ in _) => cbv zeta
      end ].
Ltac appends_auto := repeat appends_step.

Lemma draws_legend_app e1 e2 :
  draws_legend (e1 ++ e2) = draws_legend e1 || draws_legend e2.
Proof. apply existsb_app. Qed.

Lemma not_legend_draws evs :
  forallb not_legend evs = true → draws_legend evs = false.
Proof.
  induction evs as [|ev evs IH]; simpl; [done|].
  intros [H1 H2]%andb_true_iff. rewrite (IH H2). now destruct ev.
Qed.

Lemma os_query_not_legend evs :
  forallb is_os_query evs = true → forallb not_legend evs = true.
Proof.
  induction evs as [|ev evs IH]; simpl; [done|].
  intros [H1 H2]%andb_true_iff. rewrite (IH H2). now destruct ev.
Qed.

(** ** Paths *)

Lemma upto_last_sep_empty p :
  OsPath.upto_last_sep p = EmptyString ↔ has_sep p = false.
Proof.
  induction p as [|c r IH]; simpl; [done|].
  destruct (OsPath.upto_last_sep r) eqn:Hr.
  - destruct (Ascii.eqb c OsPath.sep); simpl; [split; discriminate|].
    split; intros _; [now apply IH|done].
  - split; [discriminate|]. intros H. apply orb_false_iff in H as [_ H].
    apply IH in H. discriminate.
Qed.

Lemma rstrip_sep_empty h :
  OsPath.rstrip_sep h = EmptyString ↔ OsPath.all_sep h = true.
Proof.
  induction h as [|c r IH]; simpl; [done|].
  destruct (OsPath.rstrip_sep r) eqn:Hr.
  - destruct (Ascii.eqb c OsPath.sep); simpl; [|split; discriminate].
    split; intros _; [now apply IH|done].
  - split; [discriminate|]. intros H. apply andb_true_iff in H as [_ H].
    apply IH in H. discriminate.
Qed.

Lemma eqb_empty s : String.eqb s "" = true ↔ s = EmptyString.
Proof. apply String.eqb_eq. Qed.

(** [dirname] is empty exactly for a path without a separator. *)
Lemma dirname_empty p :
  String.eqb (OsPath.dirname p) "" = negb (has_sep p).
Proof.
  unfold OsPath.dirname.
  destruct (has_sep p) eqn:Hs; simpl.
  - assert (Hne : OsPath.upto_last_sep p ≠ EmptyString).
    { intros H. apply upto_last_sep_empty in H. congruence. }
    destruct (String.eqb (OsPath.upto_last_sep p) "") eqn:He.
    { apply eqb_empty in He. done. }
    simpl. destruct (OsPath.all_sep (OsPath.upto_last_sep p)) eqn:Ha; simpl; [done|].
    apply not_true_iff_false. intros H. apply eqb_empty, rstrip_sep_empty in H.
    congruence.
  - apply upto_last_sep_empty in Hs. rewrite Hs. reflexivity.
Qed.

Example dirname_examples :
  OsPath.dirname <$> ["a/b"; "/a"; "a"; "//a"; "a//b"; ""; "/"; "/a/b/c.png"]%string
  = ["a"; "/"; ""; "//"; "a"; ""; "/"; "/a/b"]%string.
Proof. reflexivity. Qed.

Lemma check_file_writable_queries fs f :
  appends is_os_query (check_file_writable fs f).
Proof.
  unfold check_file_writable, OsPath.path_exists, OsPath.path_isfile, OsPath.access.
  appends_auto.
Qed.

(** The directory part of a path is cut out of the path. *)
Lemma has_nul_upto_last_sep p :
  OsPath.has_nul p = false → OsPath.has_nul (OsPath.upto_last_sep p) = false.
Proof.
  induction p as [|c r IH]; simpl; [done|].
  intros [Hc Hr]%orb_false_iff. specialize (IH Hr).
  destruct (OsPath.upto_last_sep r) eqn:E.
  - destruct (Ascii.eqb c OsPath.sep); simpl; [|done]. now rewrite Hc.
  - simpl in IH |- *. now rewrite Hc, IH.
Qed.

Lemma has_nul_rstrip_sep h :
  OsPath.has_nul h = false → OsPath.has_nul (OsPath.rstrip_sep h) = false.
Proof.
  induction h as [|c r IH]; simpl; [done|].
  intros [Hc Hr]%orb_false_iff. specialize (IH Hr).
  destruct (OsPath.rstrip_sep r) eqn:E.
  - destruct (Ascii.eqb c OsPath.sep); simpl; [done|]. now rewrite Hc.
  - simpl in IH |- *. now rewrite Hc, IH.
Qed.

Lemma has_nul_dirname p :
  OsPath.has_nul p = false → OsPath.has_nul (OsPath.dirname p) = false.
Proof.
  intros H. unfold OsPath.dirname.
  destruct (negb _ && negb _);
    [apply has_nul_rstrip_sep|]; now apply has_nul_upto_last_sep.
Qed.

(** What [check_file_writable] returns for a string, and when it raises. *)
Lemma check_file_writable_value fs p tr :
  ∃ queries,
    check_file_writable fs (PyStr p) tr
    = (if OsPath.has_nul (OsPath.dirname p)
       then Raise ValueError
       else Ok (writable_as_described fs p),
       tr ++ queries) ∧
    forallb is_os_query queries = true.
Proof.
  unfold check_file_writable, writable_as_described,
    OsPath.path_exists, OsPath.path_isfile, OsPath.access, emit.
  pose proof (dirname_empty p) as Hd.
  pose proof (has_nul_dirname p) as Hn.
  mrun. destruct (OsPath.has_nul p) eqn:Hp; simpl.
  - rewrite Hd. destruct (has_sep p); simpl.
    + destruct (OsPath.has_nul (OsPath.dirname p)); simpl;
        eexists [_; _]; rewrite <- !app_assoc; simpl; auto.
    + apply eqb_empty in Hd. rewrite Hd. simpl.
      eexists [_; _]. rewrite <- !app_assoc. simpl. auto.
  - rewrite (Hn eq_refl). destruct (OsPath.exists_ fs p); simpl.
    + destruct (OsPath.isfile fs p); simpl.
      * eexists [_; _; _]. rewrite <- !app_assoc. simpl. auto.
      * eexists [_; _]. rewrite <- !app_assoc. simpl. auto.
    + rewrite Hd. destruct (has_sep p); simpl.
      * rewrite (Hn eq_refl). simpl.
        eexists [_; _]. rewrite <- !app_assoc. simpl. auto.
      * eexists [_; _]. rewrite <- !app_assoc. simpl. auto.
Qed.



(** ** The builder *)

Section Builder.
Variable float_of_str : string → option float.
Variable float_repr : float → string.

Lemma init_untitled : init float_repr None = Ok blank_plot.
Proof. reflexivity. Qed.

(** *** Limits *)

Lemma set_x_limits_x_limits xmin xmax :
  keeps __x_limits (set_x_limits float_of_str xmin xmax).
Proof. unfold set_x_limits, coerce_bound. keeps_auto. Qed.

(** C1. [set_x_limits] never touches the stored X bounds: whatever bound [b]
    is passed, it lands in the Y bounds.  On a new builder, after
    [set_x_limits(b)] and [set_x_data([x])], the lower X bound is unset for
    every [x], also when [x >= b], and the lower Y bound is [b]. *)
Theorem C1_set_x_limits_stores_no_x_bound (b : float) (x : num) :
  (∀ s xmin xmax,
     __x_limits (state_of (set_x_limits float_of_str xmin xmax s))
     = __x_limits s) ∧
  ∃ s',
    script float_of_str float_repr
      [SetXLimits (Some (PyNum (Flt b))) None; SetXData (PySeq KList [x])]
      (blank_plot, [])
    = (Ok (), (s', [])) ∧
    __x_limits s' = (None, None) ∧
    __y_limits s' = (Some b, None).
Proof.
  split; [intros; apply set_x_limits_x_limits|].
  eexists. repeat split.
Qed.

(** C2. The test that retracts an upper bound compares the new maximum with
    the lower bound.  With bounds (0, 10) a series whose maximum is 5 clears
    the upper bound, in [add_y_data] and in [set_x_data] alike; with bounds
    (None, 10) a series whose maximum is 50 keeps the upper bound and the
    call ends in a [TypeError]. *)
Theorem C2_upper_bound_checked_against_lower_bound :
  let five := PySeq KList [Flt 5%float] in
  let fifty := PySeq KList [Flt 50%float] in
  let ten := Some (PyNum (Flt 10%float)) in
  num_gt (Flt 5%float) (Flt 10%float) = false ∧
  script float_of_str float_repr
    [SetYLimits (Some (PyNum (Flt 0%float))) ten; AddYData five None]
    (blank_plot, [])
  = (Ok (), (with_y_data [five] (with_legend [None]
               (with_y_limits (Some 0%float, None) blank_plot)), [])) ∧
  set_x_data five (with_x_limits (Some 0%float, Some 10%float) blank_plot)
  = (Ok (), with_x_data (Some five)
              (with_x_limits (Some 0%float, None) blank_plot)) ∧
  num_gt (Flt 50%float) (Flt 10%float) = true ∧
  script float_of_str float_repr
    [SetYLimits (Some PyNone) ten; AddYData fifty None]
    (blank_plot, [])
  = (Raise TypeError, (with_y_limits (None, Some 10%float) blank_plot, [])).
Proof. cbv zeta. repeat split. Qed.

(** *** Logarithmic scale *)

Lemma set_x_limits_log a b s :
  __log_x s = true →
  set_x_limits float_of_str a b s = (Raise (RuntimeError LogLimits), s).
Proof. intros H. unfold set_x_limits. mrun. now rewrite H. Qed.

Lemma set_y_limits_log a b s :
  __log_y s = true →
  set_y_limits float_of_str a b s = (Raise (RuntimeError LogLimits), s).
Proof. intros H. unfold set_y_limits. mrun. now rewrite H. Qed.

(** C8. [set_log_scale] always succeeds; for an axis whose argument is true
    it leaves the flag set and both stored bounds of that axis unset,
    whatever they were; and on every builder whose flag for an axis is set,
    the bound setter of that axis raises the [RuntimeError] for logarithmic
    axes and leaves the builder as it was. *)
Theorem C8_log_scale_clears_bounds_and_blocks_setter
    (s : SimplePlot) (x y a b : option pyobj) :
  let s' := state_of (set_log_scale x y s) in
  outcome_of (set_log_scale x y s) = Ok () ∧
  (py_bool (kwarg (PyBool false) x) = true →
     __log_x s' = true ∧
     __x_limits s' = (None, None) ∧
     ∀ t, __log_x t = true →
          set_x_limits float_of_str a b t = (Raise (RuntimeError LogLimits), t)) ∧
  (py_bool (kwarg (PyBool false) y) = true →
     __log_y s' = true ∧
     __y_limits s' = (None, None) ∧
     ∀ t, __log_y t = true →
          set_y_limits float_of_str a b t = (Raise (RuntimeError LogLimits), t)).
Proof.
  cbv zeta. split; [|split].
  - unfold set_log_scale. mrun.
    destruct (py_bool (default (PyBool false) x)),
      (py_bool (default (PyBool false) y)); reflexivity.
  - intros Hx. split; [|split; [|apply set_x_limits_log]].
    all: unfold set_log_scale; mrun; unfold kwarg in Hx; rewrite Hx;
      destruct (py_bool (default (PyBool false) y)); reflexivity.
  - intros Hy. split; [|split; [|apply set_y_limits_log]].
    all: unfold set_log_scale; mrun; unfold kwarg in Hy; rewrite Hy;
      destruct (py_bool (default (PyBool false) x)); reflexivity.
Qed.

(** C10. Every call of [set_log_scale] writes both flags: each becomes the
    truth value of its argument, false when the argument is left out.  So
    [set_log_scale(y=True)] after [set_log_scale(x=True)] leaves X linear and
    Y logarithmic. *)
Theorem C10_set_log_scale_overwrites_both_flags
    (s : SimplePlot) (x y : option pyobj) :
  let s' := state_of (set_log_scale x y s) in
  outcome_of (set_log_scale x y s) = Ok () ∧
  __log_x s' = py_bool (kwarg (PyBool false) x) ∧
  __log_y s' = py_bool (kwarg (PyBool false) y) ∧
  __log_x (state_of (set_log_scale None y s)) = false ∧
  __log_y (state_of (set_log_scale x None s)) = false ∧
  let s1 := state_of (set_log_scale (Some (PyBool true)) None s) in
  let s2 := state_of (set_log_scale None (Some (PyBool true)) s1) in
  __log_x s1 = true ∧ __log_x s2 = false ∧ __log_y s2 = true.
Proof.
  unfold set_log_scale. mrun.
  destruct (py_bool (default (PyBool false) x)),
    (py_bool (default (PyBool false) y)); simpl; auto 10.
Qed.

(** *** Resolution *)

Lemma zero_lt_not_le (d : float) :
  (0 <? d)%float = true → (d <=? 0)%float = false.
Proof.
  rewrite ltb_spec, leb_spec.
  change (Prim2SF 0%float) with (S754_zero false).
  destruct (Prim2SF d) as [sg|sg| |sg m e]; try destruct sg;
    unfold SFltb, SFleb; simpl; congruence.
Qed.

(** A value that converts to a float [<= 0] is refused and nothing changes. *)
Lemma set_dpi_rejects v d s :
  py_float float_of_str v = Ok d →
  (d <=? 0)%float = true →
  set_dpi float_of_str v s = (Raise (RuntimeError NegativeDpi), s).
Proof. intros Hv Hd. unfold set_dpi. mrun. rewrite Hv. simpl. now rewrite Hd. Qed.

(** A value that converts to a float [> 0] is stored. *)
Lemma set_dpi_accepts v d s :
  py_float float_of_str v = Ok d →
  (0 <? d)%float = true →
  set_dpi float_of_str v s = (Ok (), with_dpi (Flt d) s).
Proof.
  intros Hv Hd. unfold set_dpi. mrun. rewrite Hv. simpl.
  now rewrite (zero_lt_not_le d Hd).
Qed.

(** What is stored is a float that is not [<= 0]. *)
Lemma set_dpi_stores v s s' :
  set_dpi float_of_str v s = (Ok (), s') →
  ∃ d, py_float float_of_str v = Ok d ∧ (d <=? 0)%float = false ∧
       s' = with_dpi (Flt d) s.
Proof.
  unfold set_dpi. mrun. destruct (py_float float_of_str v) as [d|e]; [|done].
  simpl. destruct (d <=? 0)%float eqn:Hd; simpl; [done|].
  intros [= <-]. eauto.
Qed.

(** A failed [set_dpi] leaves the builder as it was. *)
Lemma set_dpi_raise v s e s' :
  set_dpi float_of_str v s = (Raise e, s') → s' = s.
Proof.
  unfold set_dpi. mrun. destruct (py_float float_of_str v) as [d|e']; simpl;
    [|congruence].
  destruct (d <=? 0)%float; simpl; congruence.
Qed.

(** C7. [nan <= 0.0] is false, so [set_dpi(float('nan'))] passes the test of
    [set_dpi] and NaN is stored: a resolution that is not strictly positive,
    where a new builder has the strictly positive 1200. *)
Theorem C7_set_dpi_accepts_nan :
  (nan <=? 0)%float = false ∧
  set_dpi float_of_str (PyNum (Flt nan)) blank_plot
  = (Ok (), with_dpi (Flt nan) blank_plot) ∧
  strictly_positive (__dpi (with_dpi (Flt nan) blank_plot)) = false ∧
  strictly_positive (__dpi blank_plot) = true.
Proof. repeat split. Qed.

(** *** Without X data *)

Lemma add_y_data_x_data y l : keeps __x_data (add_y_data float_repr y l).
Proof. unfold add_y_data. keeps_auto. Qed.

Lemma add_y_sets_x_data ys ls : keeps __x_data (add_y_sets float_repr ys ls).
Proof. unfold add_y_sets. keeps_auto. apply add_y_data_x_data. Qed.

Lemma setters_x_data :
  (∀ d, keeps __x_data (set_dpi float_of_str d)) ∧
  (∀ c st, keeps __x_data (set_grid c st)) ∧
  (∀ l, keeps __x_data (set_x_label float_repr l)) ∧
  (∀ l, keeps __x_data (set_y_label float_repr l)) ∧
  (∀ a b, keeps __x_data (set_x_limits float_of_str a b)) ∧
  (∀ a b, keeps __x_data (set_y_limits float_of_str a b)) ∧
  (∀ x y, keeps __x_data (set_log_scale x y)).
Proof.
  repeat split; intros;
    unfold set_dpi, set_grid, set_x_label, set_y_label, convert_label,
      set_x_limits, set_y_limits, coerce_bound, set_log_scale;
    keeps_auto.
Qed.

Lemma create_no_x_data fs filename s tr :
  __x_data s = None →
  create fs filename (s, tr) = (Raise (RuntimeError NoXData), (s, tr)).
Proof. intros H. unfold create. mrun. now rewrite H. Qed.

(** Only [set_x_data] can give a builder its X series. *)
Lemma exec_keeps_no_x_data c w :
  is_set_x_data c = false →
  __x_data w.1 = None →
  __x_data (state_of (exec float_of_str float_repr c w)).1 = None.
Proof.
  intros Hc Hx.
  destruct setters_x_data as (Hdpi & Hgrid & Hxl & Hyl & Hxlim & Hylim & Hlog).
  destruct c; try discriminate Hc; unfold exec;
    try (rewrite on_fst_state; rewrite <- Hx).
  - apply Hdpi.
  - apply Hgrid.
  - apply Hxl.
  - apply Hyl.
  - apply Hxlim.
  - apply Hylim.
  - done.
  - apply add_y_data_x_data.
  - apply add_y_sets_x_data.
  - apply Hlog.
  - destruct w as [s tr]. rewrite create_no_x_data by done. done.
Qed.

Lemma session_keeps_no_x_data cs : ∀ w,
  forallb (λ c, negb (is_set_x_data c)) cs = true →
  __x_data w.1 = None →
  __x_data (session float_of_str float_repr cs w).1 = None.
Proof.
  induction cs as [|c cs IH]; intros w Hcs Hx; simpl in *; [done|].
  apply andb_true_iff in Hcs as [Hc Hcs]. apply negb_true_iff in Hc.
  apply IH; [done|]. now apply exec_keeps_no_x_data.
Qed.

Lemma init_x_data title o : init float_repr title = Ok o → __x_data o = None.
Proof.
  unfold init. mrun.
  repeat match goal with
         | |- context [match ?e with _ => _ end] => destruct e
         end; intros [= <-]; reflexivity.
Qed.

(** C5. Take a builder made with any title and any calls other than
    [set_x_data] made on it, failed or not, in any number.  Then [create],
    for any destination and any file system, raises the [RuntimeError] for
    missing X data, and the builder and the record of outside calls are what
    they were before: no query of the file system, no call into pyplot. *)
Theorem C5_create_without_x_data_raises_first
    (title : option pyobj) (o : SimplePlot) (cs : list call)
    (fs : OsPath.filesystem) (filename : option pyobj) :
  init float_repr title = Ok o →
  forallb (λ c, negb (is_set_x_data c)) cs = true →
  let w := session float_of_str float_repr cs (o, []) in
  create fs filename w = (Raise (RuntimeError NoXData), w).
Proof.
  intros Hinit Hcs w.
  assert (Hx : __x_data w.1 = None).
  { apply session_keeps_no_x_data; [done|]. simpl. now apply init_x_data in Hinit. }
  destruct w as [s tr]. now apply create_no_x_data.
Qed.

(** *** The bulk accumulator *)

(** The loop of [add_y_sets], started at index [length py]. *)
Lemma add_y_sets_loop (ys : list pyobj) : ∀ (ls py pl : list pyobj) s,
  length py = length pl →
  length ys = length ls →
  for_each (seq (length py) (length ys)) (λ i,
    label ← index (pl ++ ls) i;
    y ← index (py ++ ys) i;
    add_y_data float_repr y (Some label)) s
  = add_one_by_one float_repr (zip ys ls) s.
Proof.
  unfold add_one_by_one.
  induction ys as [|y ys IH]; intros ls py pl s Hp Hl; destruct ls as [|l ls];
    try discriminate Hl; [reflexivity|].
  injection Hl as Hl. simpl.
  rewrite (index_middle pl ls l (length py) Hp).
  rewrite (index_middle py ys y (length py) eq_refl).
  rewrite !bind_unfold. unfold ret at 1. cbn iota beta.
  rewrite bind_ret.
  destruct (add_y_data float_repr y (Some l) s) as [[[]|e] s1]; [|reflexivity].
  specialize (IH ls (py ++ [y]) (pl ++ [l]) s1).
  rewrite !length_app, <- !app_assoc in IH. simpl in IH.
  replace (length py + 1)%nat with (S (length py)) in IH by lia.
  apply IH; [lia|done].
Qed.

Lemma add_y_sets_one_by_one y_list y_labels ys ls s :
  arg_as_sequence y_list = Some ys →
  arg_as_sequence y_labels = Some ls →
  length ls = length ys →
  add_y_sets float_repr y_list (Some y_labels) s
  = add_one_by_one float_repr (zip ys ls) s.
Proof.
  intros Hy Hl Hlen. unfold add_y_sets. rewrite Hy. unfold kwarg. simpl.
  assert (arg_is_none y_labels = false) as ->.
  { destruct y_labels as [[]|]; try discriminate Hl; reflexivity. }
  simpl. rewrite Hl. rewrite !bind_unfold. unfold when.
  rewrite Hlen, Nat.eqb_refl. simpl. unfold range.
  apply (add_y_sets_loop ys ls [] []); [reflexivity|congruence].
Qed.

(** [add_y_data] appends to both lists when it returns, to neither when it
    raises. *)
Lemma add_y_data_appends y l s :
  let r := add_y_data float_repr y l s in
  __y_data r.2 = (if raised r.1 then __y_data s else __y_data s ++ [y]) ∧
  length (__legend r.2)
  = (if raised r.1 then length (__legend s) else S (length (__legend s))).
Proof.
  cbv zeta. unfold add_y_data. run_cases; split;
    rewrite ?length_app; simpl;
    first [ reflexivity | congruence | lia
          | match goal with H : __y_data _ = _ |- _ => now rewrite H end ].
Qed.

Lemma add_one_by_one_appends es : ∀ s s1,
  add_one_by_one float_repr es s = (Ok (), s1) →
  __y_data s1 = __y_data s ++ es.*1 ∧
  length (__legend s1) = (length (__legend s) + length es)%nat.
Proof.
  unfold add_one_by_one.
  induction es as [|[y l] es IH]; intros s s1; simpl.
  - intros [= <-]. now rewrite app_nil_r, Nat.add_0_r.
  - rewrite bind_unfold. simpl.
    pose proof (add_y_data_appends y (Some l) s) as [Hy Hl]. cbv zeta in Hy, Hl.
    destruct (add_y_data float_repr y (Some l) s) as [[[]|e] s0]; [|done].
    simpl in Hy, Hl. intros H. apply IH in H as [-> ->].
    rewrite Hy, Hl, <- app_assoc. simpl. split; [done|lia].
Qed.

(** C6. When [y_list] and [y_labels] are lists or tuples of the same length,
    [add_y_sets] returns the outcome and leaves the builder that the
    single-series calls, made in order with the label of the same position,
    return and leave.  For two series [a], [b] with labels "L1", "L2" that
    is [add_y_data(a, "L1")] followed by [add_y_data(b, "L2")].  When the
    call for some entry raises, the bulk call raises the same exception, and
    the series before that entry are in the builder, one label each. *)
Theorem C6_add_y_sets_is_add_y_data_in_order
    (y_list y_labels : pyarg) (ys ls : list pyobj) (s : SimplePlot) :
  arg_as_sequence y_list = Some ys →
  arg_as_sequence y_labels = Some ls →
  length ls = length ys →
  add_y_sets float_repr y_list (Some y_labels) s
  = add_one_by_one float_repr (zip ys ls) s
  ∧ (∀ a b k k',
       add_y_sets float_repr (ObjSeq k [a; b])
         (Some (ObjSeq k' [PyStr "L1"; PyStr "L2"])) s
       = (add_y_data float_repr a (Some (PyStr "L1")) ;;
          add_y_data float_repr b (Some (PyStr "L2"))) s)
  ∧ (∀ ys1 y ys2 ls1 l ls2 s1 e s2,
       ys = ys1 ++ y :: ys2 →
       ls = ls1 ++ l :: ls2 →
       length ls1 = length ys1 →
       add_one_by_one float_repr (zip ys1 ls1) s = (Ok (), s1) →
       add_y_data float_repr y (Some l) s1 = (Raise e, s2) →
       add_y_sets float_repr y_list (Some y_labels) s = (Raise e, s2) ∧
       __y_data s2 = __y_data s ++ ys1 ∧
       length (__legend s2) = (length (__legend s) + length ys1)%nat).
Proof.
  intros Hy Hl Hlen. split; [|split].
  - now apply add_y_sets_one_by_one.
  - intros a b k k'.
    rewrite (add_y_sets_one_by_one _ _ [a; b] [PyStr "L1"; PyStr "L2"]) by done.
    unfold add_one_by_one. simpl. rewrite !bind_unfold.
    destruct (add_y_data float_repr a _ s) as [[[]|e] s1]; [|reflexivity].
    rewrite bind_unfold.
    now destruct (add_y_data float_repr b _ s1) as [[[]|e] s2].
  - intros ys1 y ys2 ls1 l ls2 s1 e s2 -> -> Hlen1 Hpre Hfail.
    rewrite (add_y_sets_one_by_one _ _ _ _ s Hy Hl Hlen).
    rewrite zip_with_app by (symmetry; exact Hlen1).
    unfold add_one_by_one in *. rewrite for_each_app, bind_unfold, Hpre.
    simpl. rewrite bind_unfold, Hfail.
    pose proof (add_y_data_appends y (Some l) s1) as [Hyd Hld].
    cbv zeta in Hyd, Hld. rewrite Hfail in Hyd, Hld. simpl in Hyd, Hld.
    apply (add_one_by_one_appends (zip ys1 ls1)) in Hpre as [Hd Hg].
    rewrite Hyd, Hld, Hd, Hg, length_zip_with_l_eq by (symmetry; exact Hlen1).
    rewrite fst_zip by lia. done.
Qed.

(** *** create *)

(** The loop of [create] over the labels. *)
Lemma blank_loop (rest : list (option string)) : ∀ pre s,
  __legend s = pre ++ rest →
  for_each (seq (length pre) (length rest)) (λ i,
    self ← get;
    l ← index (__legend self) i;
    when (bool_decide (l = None))
      (modify (with_legend (<[i := Some ""%string]> (__legend self))))) s
  = (Ok (), with_legend (pre ++ (display_label <$> rest)) s).
Proof.
  induction rest as [|l rest IH]; intros pre s Hs.
  - simpl. rewrite app_nil_r in *. rewrite <- Hs. now destruct s.
  - simpl. rewrite bind_unfold. rewrite bind_unfold. unfold get at 1.
    cbn iota beta. rewrite Hs at 1. rewrite index_middle by reflexivity.
    rewrite bind_unfold. unfold ret at 1. cbn iota beta.
    set (step := when (bool_decide (l = None))
                   (modify (with_legend
                              (<[length pre := Some ""%string]> (__legend s)))) s).
    assert (Hstep : step = (Ok (), step.2)
                    ∧ __legend step.2 = (pre ++ [display_label l]) ++ rest
                    ∧ ∀ v, with_legend v step.2 = with_legend v s).
    { subst step. destruct l as [t|]; simpl.
      - rewrite <- app_assoc. done.
      - rewrite Hs, <- app_assoc. simpl.
        replace (length pre) with (length pre + 0)%nat by lia.
        rewrite insert_app_r. done. }
    destruct Hstep as (-> & Hl1 & Hw).
    specialize (IH (pre ++ [display_label l]) step.2 Hl1).
    rewrite length_app in IH. simpl in IH.
    replace (length pre + 1)%nat with (S (length pre)) in IH by lia.
    rewrite IH, Hw, <- app_assoc. reflexivity.
Qed.

(** The loop writes into the stored list: every unset label becomes "". *)
Lemma blank_missing_labels_spec s :
  blank_missing_labels s
  = (Ok (), with_legend (display_label <$> __legend s) s).
Proof.
  unfold blank_missing_labels. rewrite bind_unfold. unfold get at 1.
  cbn iota beta. unfold range. apply (blank_loop (__legend s) [] s). reflexivity.
Qed.

(** The loop of [create] over the series. *)
Lemma plot_loop x (idx : list nat) : ∀ s tr n, ∃ o evs m,
  for_each idx (λ i,
    on_fst (
      self ← on_fst get;
      y ← index (__y_data self) i;
      label ← index (__legend self) i;
      on_snd (emit (AxPlot x y label)));;
    on_snd (modify S)) (s, tr, n)
  = (o, (s, tr ++ evs, m)) ∧ forallb not_legend evs = true.
Proof.
  induction idx as [|i idx IH]; intros s tr n.
  - exists (Ok ()), [], n. simpl. now rewrite app_nil_r.
  - simpl. rewrite bind_unfold. rewrite bind_unfold.
    unfold on_fst at 1. simpl. rewrite bind_unfold. unfold on_fst at 1, get at 1.
    simpl. unfold index.
    destruct (__y_data s !! i) as [y|]; simpl;
      [|exists (Raise IndexError), [], n; now rewrite app_nil_r].
    destruct (__legend s !! i) as [l|]; simpl;
      [|exists (Raise IndexError), [], n; now rewrite app_nil_r].
    destruct (IH s (tr ++ [AxPlot x y l]) (S n)) as (o & evs & m & E & H).
    exists o, (AxPlot x y l :: evs), m. split; [|done].
    unfold index in E. rewrite E. now rewrite <- app_assoc.
Qed.

Lemma with_lines_plot_lines x s tr : ∃ o evs,
  with_lines (plot_lines x) (s, tr) = (o, (s, tr ++ evs)) ∧
  forallb not_legend evs = true.
Proof.
  unfold with_lines, plot_lines. rewrite bind_unfold. unfold get at 1.
  cbn iota beta.
  destruct (plot_loop x (range (length (__y_data s))) s tr 0%nat)
    as (o & evs & m & E & H).
  simpl fst. rewrite E. destruct o as [[]|e]; eauto.
Qed.

(** What a [create] that returns has done: the only change to the builder is
    that unset labels have become "", and the legend is drawn exactly when
    some label was set when the call began. *)
Lemma create_ok fs filename s tr s' tr' :
  create fs filename (s, tr) = (Ok (), (s', tr')) →
  s' = with_legend (display_label <$> __legend s) s ∧
  ∃ evs, tr' = tr ++ evs ∧
         draws_legend evs
         = existsb (λ l, bool_decide (l ≠ None)) (__legend s).
Proof.
  unfold create. rewrite bind_unfold. unfold on_fst at 1, get at 1.
  cbn beta iota delta [fst snd].
  destruct (__x_data s) as [x|]; [|unfold raise; discriminate].
  rewrite bind_unfold.
  (* the destination *)
  match goal with |- context [match ?b (s, tr) with _ => _ end] =>
    assert (∃ o qs, b (s, tr) = (o, (s, tr ++ qs)) ∧ forallb not_legend qs = true)
      as (o1 & qs & -> & Hqs)
  end.
  { unfold kwarg. destruct (negb (is_none (default PyNone filename))).
    - rewrite bind_unfold.
      destruct (on_snd_appends is_os_query _
                  (check_file_writable_queries fs (default PyNone filename)) s tr)
        as (o & qs & -> & H).
      apply os_query_not_legend in H.
      destruct o as [w|e]; [|eauto]. destruct w; simpl; eauto.
    - exists (Ok ()), []. now rewrite app_nil_r. }
  destruct o1 as [[]|]; [|discriminate]. cbv zeta.
  (* the labels *)
  rewrite bind_unfold. unfold on_fst at 1. cbn beta iota delta [fst snd].
  rewrite blank_missing_labels_spec.
  set (s2 := with_legend (display_label <$> __legend s) s).
  (* the figure and the lines *)
  rewrite bind_unfold. unfold on_snd at 1, emit at 1, modify at 1.
  cbn beta iota delta [fst snd]. rewrite bind_unfold.
  destruct (with_lines_plot_lines x s2 ((tr ++ qs) ++ [PltSubplots]))
    as (o3 & plots & -> & Hplots).
  destruct o3 as [lines|]; [|discriminate].
  rewrite bind_unfold. unfold on_fst at 1, get at 1.
  cbn beta iota delta [fst snd].
  (* the legend and the settings *)
  unfold on_snd. cbn beta iota delta [fst snd]. rewrite bind_unfold.
  set (use_legend := existsb _ (__legend s)).
  match goal with |- context [bind ?m ?k] =>
    assert (appends not_legend (bind m k)) as Hrest
  end.
  { appends_auto. }
  set (tr3 := ((tr ++ qs) ++ [PltSubplots]) ++ plots) in *.
  assert (∃ lg, when use_legend (emit (AxLegend lines)) tr3 = (Ok (), tr3 ++ lg)
                ∧ draws_legend lg = use_legend) as (lg & -> & Hlg).
  { destruct use_legend; simpl; [exists [AxLegend lines]|exists []];
      now rewrite ?app_nil_r. }
  match goal with |- context [bind ?m ?k] =>
    destruct (Hrest (tr3 ++ lg)) as (rest & E & Hr);
    destruct (bind m k (tr3 ++ lg)) as [o5 tr5]
  end.
  simpl in E. subst tr5. intros [= -> <- <-]. split; [reflexivity|].
  exists (qs ++ [PltSubplots] ++ plots ++ lg ++ rest). split.
  - subst tr3. now rewrite <- !app_assoc.
  - rewrite !draws_legend_app, Hlg.
    rewrite (not_legend_draws qs), (not_legend_draws plots),
      (not_legend_draws rest) by done.
    simpl. now rewrite orb_false_r.
Qed.

(** C3. A builder with an X series and one series added without a label
    holds the label list [[None]].  [create] returns on it, and afterwards
    the stored list is [[""]]: the call has changed the builder. *)
Theorem C3_create_rewrites_stored_labels (fs : OsPath.filesystem) :
  let one := PySeq KList [Int 1] in
  let built :=
    session float_of_str float_repr [SetXData one; AddYData one None]
      (blank_plot, []) in
  let r := create fs None built in
  __legend built.1 = [None] ∧
  outcome_of r = Ok () ∧
  __legend (state_of r).1 = [Some ""%string] ∧
  (state_of r).1 ≠ built.1.
Proof. cbv zeta. repeat split. discriminate. Qed.

(** C4. On the same builder, whose only series was added with the label
    [None], the first [create] does not draw the legend and the second one,
    with nothing called in between, does. *)
Theorem C4_second_create_draws_legend (fs : OsPath.filesystem) :
  let one := PySeq KList [Int 1] in
  let built :=
    session float_of_str float_repr [SetXData one; AddYData one None]
      (blank_plot, []) in
  let first := create fs None built in
  let second := create fs None ((state_of first).1, []) in
  __legend built.1 = [None] ∧
  outcome_of first = Ok () ∧
  draws_legend (state_of first).2 = false ∧
  outcome_of second = Ok () ∧
  draws_legend (state_of second).2 = true.
Proof. cbv zeta. repeat split. Qed.

End Builder.

(** ** Instances *)

Lemma C5_no_x_data_instance :
  let two := PySeq KList [Int 1; Int 2] in
  let w :=
    session sample_float_of_str sample_float_repr
      [AddYData two (Some (PyStr "a")); SetDpi (PyStr "300"); AddYData two None]
      (blank_plot, []) in
  create empty_fs (Some (PyStr "out.png")) w
  = (Raise (RuntimeError NoXData), w).
Proof.
  exact (C5_create_without_x_data_raises_first
           sample_float_of_str sample_float_repr None blank_plot
           [AddYData (PySeq KList [Int 1; Int 2]) (Some (PyStr "a"));
            SetDpi (PyStr "300");
            AddYData (PySeq KList [Int 1; Int 2]) None]
           empty_fs (Some (PyStr "out.png")) eq_refl eq_refl).
Defined.

Lemma C6_two_series_instance :
  let a := PySeq KList [Int 1; Int 2] in
  let b := PySeq KTuple [Flt 3%float; Flt 4%float] in
  add_y_sets sample_float_repr (ObjSeq KList [a; b])
    (Some (ObjSeq KList [PyStr "L1"; PyStr "L2"])) blank_plot
  = add_one_by_one sample_float_repr [(a, PyStr "L1"); (b, PyStr "L2")]
      blank_plot.
Proof.
  exact (proj1 (C6_add_y_sets_is_add_y_data_in_order sample_float_repr
                  (ObjSeq KList [PySeq KList [Int 1; Int 2];
                                 PySeq KTuple [Flt 3%float; Flt 4%float]])
                  (ObjSeq KList [PyStr "L1"; PyStr "L2"])
                  [PySeq KList [Int 1; Int 2];
                   PySeq KTuple [Flt 3%float; Flt 4%float]]
                  [PyStr "L1"; PyStr "L2"]
                  blank_plot eq_refl eq_refl eq_refl)).
Defined.

Lemma C8_log_x_instance :
  let bounded := with_x_limits (Some 1%float, Some 2%float) blank_plot in
  let s' := state_of (set_log_scale (Some (PyBool true)) None bounded) in
  __x_limits s' = (None, None) ∧
  set_x_limits sample_float_of_str (Some (PyNum (Int 1))) None s'
  = (Raise (RuntimeError LogLimits), s').
Proof.
  cbv zeta.
  destruct (C8_log_scale_clears_bounds_and_blocks_setter sample_float_of_str
              (with_x_limits (Some 1%float, Some 2%float) blank_plot)
              (Some (PyBool true)) None (Some (PyNum (Int 1))) None)
    as (_ & Hx & _).
  destruct (Hx eq_refl) as (Hflag & Hlim & Hset).
  split; [exact Hlim | exact (Hset _ Hflag)].
Defined.

(** * Further properties *)

(** ** Loops and frames *)

Lemma for_each_invariant {S A} (I : S → Prop) (xs : list A) (body : A → M S unit) :
  (∀ a s, I s → I (body a s).2) →
  ∀ s, I s → I (for_each xs body s).2.
Proof.
  intros Hbody. induction xs as [|a xs IH]; intros s Hs; simpl; [done|].
  rewrite bind_unfold. specialize (Hbody a s Hs).
  destruct (body a s) as [[[]|e] s1]; simpl in *; auto.
Qed.

Lemma keeps_on_snd {S T A} (m : M T A) : keeps (fst : S * T → S) (on_snd m).
Proof. intros [s t]. unfold on_snd. simpl. now destruct (m t). Qed.

Lemma keeps_on_fst_get {S T} : keeps (fst : S * T → S) (on_fst get).
Proof. now intros [s t]. Qed.

Lemma keeps_with_lines x : keeps fst (with_lines (plot_lines x)).
Proof.
  intros [s tr]. destruct (with_lines_plot_lines x s tr) as (o & evs & -> & _).
  reflexivity.
Qed.

(** Whatever its outcome, [create] leaves the builder as it was or with its
    unset labels turned into "". *)
Lemma create_frame fs filename s tr :
  (create fs filename (s, tr)).2.1 = s ∨
  (create fs filename (s, tr)).2.1 = with_legend (display_label <$> __legend s) s.
Proof.
  unfold create. rewrite bind_unfold.
  change (on_fst get (s, tr)) with (Ok s, (s, tr)). cbn iota beta.
  destruct (__x_data s) as [x|]; [|now left].
  rewrite bind_unfold.
  match goal with |- context [match ?b (s, tr) with _ => _ end] =>
    assert (∃ o tr1, b (s, tr) = (o, (s, tr1))) as (o1 & tr1 & ->)
  end.
  { unfold kwarg. destruct (negb (is_none (default PyNone filename))).
    - rewrite bind_unfold. unfold on_snd. cbn beta iota delta [fst snd].
      destruct (check_file_writable fs _ tr) as [[[]|e] tr1]; simpl; eauto.
    - eauto. }
  destruct o1 as [[]|]; [|now left]. cbv zeta. right.
  rewrite bind_unfold. unfold on_fst at 1. cbn beta iota delta [fst snd].
  rewrite blank_missing_labels_spec.
  set (s2 := with_legend _ s).
  match goal with |- (?K (s2, tr1)).2.1 = s2 =>
    assert (keeps fst K) as HK
  end.
  { repeat first [ apply keeps_on_snd | apply keeps_on_fst_get
                 | apply keeps_with_lines | apply keeps_bind; [|intros] ]. }
  apply (HK (s2, tr1)).
Qed.

(** ** Well-formed builders *)

Lemma well_formed_fields s s' :
  __legend s' = __legend s →
  __y_data s' = __y_data s →
  __x_data s' = __x_data s →
  __dpi s' = __dpi s →
  (__x_limits s' = __x_limits s ∨ __x_limits s' = (None, None)) →
  well_formed s → well_formed s'.
Proof.
  unfold well_formed, parallel_lists, same_lengths.
  intros -> -> -> -> Hl (? & ? & Hx & ?). repeat split; try done.
  destruct Hl as [->| ->]; done.
Qed.

Lemma well_formed_blanked s :
  well_formed s → well_formed (with_legend (display_label <$> __legend s) s).
Proof.
  unfold well_formed, parallel_lists, same_lengths. simpl.
  rewrite length_fmap. done.
Qed.

Section Shape.
Variable float_of_str : string → option float.
Variable float_repr : float → string.

Lemma init_well_formed title o :
  init float_repr title = Ok o → well_formed o.
Proof.
  unfold init. mrun.
  repeat match goal with
         | |- context [match ?e with _ => _ end] => destruct e
         end; intros [= <-]; repeat split; try reflexivity;
    exists 0%nat; split; constructor.
Qed.

Lemma set_dpi_well_formed v s :
  well_formed s → well_formed (set_dpi float_of_str v s).2.
Proof.
  intros H. destruct (set_dpi float_of_str v s) as [[[]|e] s'] eqn:E; simpl.
  - apply set_dpi_stores in E as (d & _ & Hd & ->).
    destruct H as (? & ? & ? & ?). repeat split; try done. simpl. now rewrite Hd.
  - apply set_dpi_raise in E as ->. done.
Qed.

Lemma set_log_scale_x_limits x y s :
  __x_limits (set_log_scale x y s).2 = __x_limits s ∨
  __x_limits (set_log_scale x y s).2 = (None, None).
Proof.
  unfold set_log_scale. mrun.
  destruct (py_bool (default (PyBool false) x)),
    (py_bool (default (PyBool false) y)); simpl; auto.
Qed.

(** The methods that touch neither the data nor the resolution. *)
Lemma plain_setters_well_formed s :
  well_formed s →
  (∀ c st, well_formed (set_grid c st s).2) ∧
  (∀ l, well_formed (set_x_label float_repr l s).2) ∧
  (∀ l, well_formed (set_y_label float_repr l s).2) ∧
  (∀ a b, well_formed (set_x_limits float_of_str a b s).2) ∧
  (∀ a b, well_formed (set_y_limits float_of_str a b s).2) ∧
  (∀ x y, well_formed (set_log_scale x y s).2).
Proof.
  intros H. repeat split; intros;
    (apply (well_formed_fields s); [| | | | |exact H]);
    try apply set_log_scale_x_limits;
    try left;
    match goal with |- ?f (?m s).2 = ?f s => generalize s; change (keeps f m) end;
    unfold set_grid, set_x_label, set_y_label, convert_label,
      set_x_limits, set_y_limits, coerce_bound, set_log_scale;
    keeps_auto.
Qed.
End Shape.

(** Closing a case of [run_cases]: the tests met on the way decide the
    boolean on the other side. *)
Ltac use_tests :=
  repeat match goal with
         | H : negb _ = true |- _ => apply negb_true_iff in H
         | H : negb _ = false |- _ => apply negb_false_iff in H
         end;
  repeat match goal with
         | H : ?a = _ |- context [?a] => rewrite H
         end;
  simpl; try reflexivity; try congruence.

Section Data.
Variable float_of_str : string → option float.
Variable float_repr : float → string.

(** Formatting an object of the model never fails. *)
Lemma fstring_ok o : ∃ t, fstring float_repr o = Ok t.
Proof. destruct o as [| | | |[] [|? []]]; simpl; eauto. Qed.

Lemma add_y_data_raised y l s :
  raised (add_y_data float_repr y l s).1 = negb (accepts_y s y).
Proof.
  unfold add_y_data, accepts_y, length_fits.
  destruct (as_sequence y) as [ys|]; [|reflexivity].
  destruct (fstring_ok (default PyNone l)) as [t Ht].
  destruct s as [dpi xd yd xl yl ti lg [[lo|] [hi|]] xlim lx ly gr];
    destruct ys as [|y0 ys];
    try (assert (Hne : (length (y0 :: ys) =? 0)%nat = false) by reflexivity;
         remember (length (y0 :: ys)) as len eqn:Hlen; clear Hlen);
    run_cases; use_tests.
Qed.

Lemma stored_label_eq l t :
  fstring float_repr (default PyNone l) = Ok t →
  stored_label float_repr l
  = if is_none (default PyNone l) then None else Some t.
Proof.
  unfold stored_label, kwarg. intros H.
  destruct (default PyNone l); cbv beta iota delta [is_none];
    try reflexivity; now rewrite H.
Qed.

(** What [add_y_data] leaves behind: on return one more series and one more
    label; on an exception nothing but, possibly, other Y bounds. *)
Lemma add_y_data_effect y l s :
  match add_y_data float_repr y l s with
  | (Ok _, s') =>
      ∃ lim, s' = with_y_data (__y_data s ++ [y])
                    (with_legend (__legend s ++ [stored_label float_repr l])
                       (with_y_limits lim s))
  | (Raise _, s') => ∃ lim, s' = with_y_limits lim s
  end.
Proof.
  destruct (fstring_ok (default PyNone l)) as [t Ht].
  rewrite (stored_label_eq l t Ht).
  unfold add_y_data.
  destruct (as_sequence y) as [ys|];
    destruct s as [dpi xd yd xl yl ti lg ylim xlim lx ly gr];
    [|now exists ylim].
  run_cases; try congruence;
    try match goal with
        | H : fstring float_repr _ = Ok ?a |- _ =>
            lazymatch a with
            | t => fail
            | _ => assert (a = t) by congruence; subst a
            end
        end;
    eexists; reflexivity.
Qed.
End Data.

Section Sessions.
Variable float_of_str : string → option float.
Variable float_repr : float → string.

Lemma is_series_py_len n o : is_series n o → py_len o = Ok n.
Proof. intros (xs & H & <-). now destruct o; try discriminate H; injection H as ->. Qed.

Lemma add_y_data_fits y l s s' :
  add_y_data float_repr y l s = (Ok (), s') →
  ∃ ys, as_sequence y = Some ys ∧ length_fits s ys = true.
Proof.
  intros E. pose proof (add_y_data_raised float_repr y l s) as H.
  rewrite E in H. simpl in H. symmetry in H. apply negb_false_iff in H.
  unfold accepts_y in H. destruct (as_sequence y) as [ys|]; [|done].
  apply andb_true_iff in H as [H _]. eauto.
Qed.

Lemma add_y_data_well_formed y l s :
  well_formed s → well_formed (add_y_data float_repr y l s).2.
Proof.
  intros (Hp & (n & Hall & Hx) & Hxl & Hd).
  pose proof (add_y_data_effect float_repr y l s) as He.
  destruct (add_y_data float_repr y l s) as [[[]|e] s'] eqn:E; simpl;
    destruct He as [lim ->]; [|repeat split; try done; now exists n].
  apply add_y_data_fits in E as (ys & Hy & Hfit).
  repeat split; try done.
  - unfold parallel_lists in *. simpl. rewrite !length_app. simpl. lia.
  - unfold same_lengths. simpl. unfold length_fits in Hfit.
    destruct (__x_data s) as [x|].
    + destruct Hx as [Hn Hsx]. rewrite (is_series_py_len n x Hsx) in Hfit.
      apply Nat.eqb_eq in Hfit. exists n. split; [|done].
      apply Forall_app. split; [done|]. repeat constructor. now exists ys.
    + destruct (__y_data s) as [|y0 yd] eqn:Hyd.
      * exists (length ys). split; [|done]. repeat constructor. now exists ys.
      * apply Forall_cons in Hall as [H0 Hall].
        rewrite (is_series_py_len n y0 H0) in Hfit. apply Nat.eqb_eq in Hfit.
        exists n. split; [|done].
        apply Forall_app. split; [now constructor|].
        repeat constructor. now exists ys.
Qed.

(** [set_x_data] on a builder without X bounds: it stores its argument and
    changes nothing else, or it raises and changes nothing. *)
Lemma set_x_data_effect x s :
  __x_limits s = (None, None) →
  if accepts_x s x
  then set_x_data x s = (Ok (), with_x_data (Some x) s)
  else ∃ e, set_x_data x s = (Raise e, s).
Proof.
  unfold set_x_data, accepts_x.
  destruct (as_sequence x) as [xs|]; [|intros _; simpl; eauto].
  destruct s as [dpi xd yd xl yl ti lg ylim xlim lx ly gr]. simpl.
  intros ->. destruct xs as [|x0 xs]; [simpl; eauto|].
  assert (Hne : (length (x0 :: xs) =? 0)%nat = false) by reflexivity.
  assert (Hle : (length (x0 :: xs) <=? 0)%nat = false) by reflexivity.
  remember (length (x0 :: xs)) as len eqn:Hlen. clear Hlen.
  rewrite Hne. run_cases; use_tests; eauto.
Qed.

Lemma set_x_data_well_formed x s :
  well_formed s → well_formed (set_x_data x s).2.
Proof.
  intros H. pose proof H as (Hp & (n & Hall & Hx) & Hxl & Hd).
  pose proof (set_x_data_effect x s Hxl) as He. unfold accepts_x in He.
  destruct (as_sequence x) as [xs|] eqn:Hseq; [|now destruct He as [e ->]].
  destruct (negb (length xs =? 0)%nat) eqn:Hne; simpl in He;
    [|now destruct He as [e ->]].
  apply negb_true_iff, Nat.eqb_neq in Hne.
  destruct (__y_data s) as [|y0 yd] eqn:Hyd.
  - rewrite He. repeat split; try done.
    exists (length xs). simpl. rewrite Hyd. split; [constructor|].
    split; [lia|now exists xs].
  - pose proof Hall as Hall'. apply Forall_cons in Hall' as [H0 _].
    rewrite (is_series_py_len n y0 H0) in He.
    destruct (length xs =? n)%nat eqn:Hlen; [|now destruct He as [e ->]].
    apply Nat.eqb_eq in Hlen. rewrite He. repeat split; try done.
    exists n. simpl. rewrite Hyd. split; [done|]. split; [lia|now exists xs].
Qed.

Lemma add_y_sets_invariant (I : SimplePlot → Prop) y_list y_labels :
  (∀ y l s, I s → I (add_y_data float_repr y l s).2) →
  ∀ s, I s → I (add_y_sets float_repr y_list y_labels s).2.
Proof.
  intros Hadd s Hs. unfold add_y_sets.
  destruct (arg_as_sequence y_list) as [ys|]; [|exact Hs].
  rewrite bind_unfold.
  match goal with |- context [match ?m s with _ => _ end] =>
    assert (∃ o, m s = (o, s)) as [o ->]
  end.
  { unfold kwarg. destruct (negb (arg_is_none _)); [|unfold ret; eauto].
    destruct (arg_as_sequence _) as [ls|]; [|unfold raise; eauto].
    rewrite bind_unfold. destruct (negb _); simpl; unfold raise, ret; eauto. }
  destruct o as [labels|e]; [|exact Hs].
  apply for_each_invariant; [|exact Hs].
  intros i t Ht. rewrite bind_unfold.
  match goal with |- context [match ?m t with _ => _ end] =>
    assert (∃ o, m t = (o, t)) as [o ->]
  end.
  { destruct labels as [ls|]; [|unfold ret; eauto].
    unfold index. destruct (ls !! i); unfold raise, ret; eauto. }
  destruct o as [label|e]; [|exact Ht].
  rewrite bind_unfold. unfold index.
  destruct (ys !! i) as [y|]; [|exact Ht]. unfold ret at 1. cbn iota beta.
  now apply Hadd.
Qed.

Lemma exec_well_formed c w :
  well_formed w.1 →
  well_formed (state_of (exec float_of_str float_repr c w)).1.
Proof.
  intros H.
  destruct (plain_setters_well_formed float_of_str float_repr w.1 H)
    as (Hgrid & Hxl & Hyl & Hxlim & Hylim & Hlog).
  destruct c as [| | | | | | | | | | |cfs cfile]; unfold exec;
    try rewrite on_fst_state.
  - now apply set_dpi_well_formed.
  - apply Hgrid.
  - apply Hxl.
  - apply Hyl.
  - apply Hxlim.
  - apply Hylim.
  - exact H.
  - now apply set_x_data_well_formed.
  - now apply add_y_data_well_formed.
  - apply add_y_sets_invariant; [|exact H].
    intros; now apply add_y_data_well_formed.
  - apply Hlog.
  - destruct w as [s tr]. unfold state_of.
    destruct (create_frame cfs cfile s tr) as [-> | ->]; [exact H|].
    now apply well_formed_blanked.
Qed.

Lemma session_well_formed cs : ∀ w,
  well_formed w.1 →
  well_formed (session float_of_str float_repr cs w).1.
Proof.
  induction cs as [|c cs IH]; intros w H; simpl; [done|].
  apply IH. now apply exec_well_formed.
Qed.
End Sessions.


(** ** What every builder satisfies *)

Section Reachable.
Variable float_of_str : string → option float.
Variable float_repr : float → string.

Lemma reachable_well_formed title o cs tr :
  init float_repr title = Ok o →
  well_formed (session float_of_str float_repr cs (o, tr)).1.
Proof.
  intros H. apply session_well_formed. simpl.
  now apply (init_well_formed float_repr title).
Qed.


(** No sequence of calls gives a builder X bounds: they are unset in every
    builder, so [create] always passes [(None, None)] to [ax.set_xlim]. *)
Theorem session_never_sets_x_limits
    (title : option pyobj) (o : SimplePlot) (cs : list call) :
  init float_repr title = Ok o →
  __x_limits (session float_of_str float_repr cs (o, [])).1 = (None, None).
Proof.
  intros H. now destruct (reachable_well_formed title o cs [] H) as (_ & _ & ? & _).
Qed.

(** The stored resolution of a builder is never [<= 0]: it is a positive
    integer (the 1200 it starts with) or a float for which [<= 0.0] is
    false. *)
Theorem session_keeps_dpi_off_nonpositive
    (title : option pyobj) (o : SimplePlot) (cs : list call) :
  init float_repr title = Ok o →
  match __dpi (session float_of_str float_repr cs (o, [])).1 with
  | Int z => 0 < z
  | Flt f => (f <=? 0)%float = false
  end.
Proof.
  intros H.
  destruct (reachable_well_formed title o cs [] H) as (_ & _ & _ & Hd).
  destruct (__dpi _) as [z|f]; simpl in Hd.
  - now apply Z.ltb_lt.
  - now apply negb_true_iff.
Qed.
End Reachable.


(** ** create *)

Section Creating.
Variable float_of_str : string → option float.
Variable float_repr : float → string.

(** With an X series and a destination that is not a string, or a string
    that names nothing writable, [create] raises a [RuntimeError]; the builder
    is unchanged and nothing but file system queries has happened. *)
Theorem create_refuses_bad_destination
    (fs : OsPath.filesystem) (f x : pyobj) (s : SimplePlot) (tr : list event) :
  __x_data s = Some x →
  is_none f = false →
  match f with
  | PyStr p => OsPath.has_nul (OsPath.dirname p) = false ∧
               writable_as_described fs p = false
  | _ => True
  end →
  ∃ queries,
    create fs (Some f) (s, tr)
    = (Raise (RuntimeError (match f with
                            | PyStr _ => NotWritable
                            | _ => BadFilenameType
                            end)),
       (s, tr ++ queries)) ∧
    forallb is_os_query queries = true.
Proof.
  intros Hx Hf Hw. unfold create. rewrite bind_unfold.
  change (on_fst get (s, tr)) with (Ok s, (s, tr)). cbn iota beta. rewrite Hx.
  rewrite bind_unfold. unfold kwarg.
  cbn [from_option id]. rewrite Hf. cbn [negb]. rewrite bind_unfold.
  unfold on_snd. cbn beta iota delta [fst snd].
  destruct f as [| | |p|]; try discriminate Hf;
    try (exists []; now rewrite app_nil_r).
  destruct Hw as [Hn Hw].
  destruct (check_file_writable_value fs p tr) as (qs & -> & H).
  rewrite Hn, Hw. exists qs. done.
Qed.

(** Whatever [create] returns or raises, the builder afterwards differs from
    the builder before in its label list at most: the list has kept its
    length, a set label is still in its place, and an unset one is unset
    or "". *)
Theorem create_touches_only_unset_labels
    (fs : OsPath.filesystem) (filename : option pyobj)
    (s : SimplePlot) (tr : list event) :
  let s' := (state_of (create fs filename (s, tr))).1 in
  s' = with_legend (__legend s') s ∧
  length (__legend s') = length (__legend s) ∧
  ∀ i l, __legend s !! i = Some l →
         __legend s' !! i = Some l ∨
         (l = None ∧ __legend s' !! i = Some (Some ""%string)).
Proof.
  cbv zeta. unfold state_of.
  destruct (create_frame fs filename s tr) as [-> | ->].
  - split; [now destruct s|]. split; [done|]. auto.
  - simpl. split; [done|]. split; [apply length_fmap|].
    intros i l Hl. rewrite list_lookup_fmap, Hl. simpl.
    destruct l; auto.
Qed.

(** After a [create] that returned, no later [create] changes the builder
    again, whether it returns or raises. *)
Theorem create_settles
    (fs fs' : OsPath.filesystem) (filename filename' : option pyobj)
    (s s' : SimplePlot) (tr tr' tr2 : list event) :
  create fs filename (s, tr) = (Ok (), (s', tr')) →
  (state_of (create fs' filename' (s', tr2))).1 = s'.
Proof.
  intros H. apply create_ok in H as [-> _]. unfold state_of.
  destruct (create_frame fs' filename'
              (with_legend (display_label <$> __legend s) s) tr2) as [-> | ->];
    [done|].
  simpl. unfold with_legend. simpl. f_equal.
  rewrite <- list_fmap_compose. apply list_fmap_ext.
  now intros ? [].
Qed.
End Creating.

(** ** The data methods *)

Section Accumulating.
Variable float_of_str : string → option float.
Variable float_repr : float → string.


(** On a builder without X bounds, which is every builder, [set_x_data]
    returns exactly when [accepts_x] holds; it then replaces the X series,
    whatever it was, and changes nothing else.  Otherwise it raises a
    [RuntimeError], as long as the series are sequences, and changes
    nothing at all. *)
Theorem set_x_data_succeeds_iff (x : pyobj) (s : SimplePlot) :
  __x_limits s = (None, None) →
  Forall (λ y, as_sequence y ≠ None) (__y_data s) →
  if accepts_x s x
  then set_x_data x s = (Ok (), with_x_data (Some x) s)
  else ∃ site, set_x_data x s = (Raise (RuntimeError site), s).
Proof.
  intros Hlim Hseq. pose proof (set_x_data_effect x s Hlim) as H.
  destruct (accepts_x s x) eqn:Hacc; [exact H|]. destruct H as [e H].
  revert H. unfold set_x_data, accepts_x in *.
  destruct (as_sequence x) as [xs|]; [|intros [= <-]; eauto].
  destruct s as [dpi xd yd xl yl ti lg ylim xlim lx ly gr]. simpl in *.
  subst xlim.
  assert (Hy0 : match yd with
                | y0 :: _ => ∃ n, py_len y0 = Ok n
                | [] => True
                end).
  { destruct yd as [|y0 yd]; [done|]. apply Forall_cons in Hseq as [H0 _].
    destruct y0; try done. simpl. eauto. }
  destruct xs as [|x0 xs]; [intros [= <-]; eauto|].
  assert (Hle : (length (x0 :: xs) <=? 0)%nat = false) by reflexivity.
  assert (Hne : (length (x0 :: xs) =? 0)%nat = false) by reflexivity.
  remember (length (x0 :: xs)) as len eqn:Hlen. clear Hlen.
  rewrite Hne in Hacc.
  destruct yd as [|y0 yd]; [discriminate Hacc|].
  destruct Hy0 as [n Hn]. run_cases; intros [= <-]; eauto; congruence.
Qed.

(** With a lower Y bound and no upper one, a returning [add_y_data] has
    compared the bound with [min] of the series. *)
Lemma add_y_data_lower_bound y l s s' lo :
  __y_limits s = (Some lo, None) →
  add_y_data float_repr y l s = (Ok (), s') →
  ∃ ys m, as_sequence y = Some ys ∧ py_min ys = Ok m ∧
          __y_limits s' = (if num_lt m (Flt lo) then None else Some lo, None).
Proof.
  unfold add_y_data.
  destruct (as_sequence y) as [ys|]; [|intros _ [=]].
  destruct s as [dpi xd yd xl yl ti lg ylim xlim lx ly gr]. simpl.
  intros ->. destruct ys as [|y0 ys].
  - run_cases; intros [=].
  - assert (Hm : py_min (y0 :: ys) = Ok (min_from y0 ys)) by reflexivity.
    remember (length (y0 :: ys)) as len eqn:Hlen. clear Hlen.
    run_cases; intros [= <-]; exists (y0 :: ys), (min_from y0 ys);
      simpl; use_tests; done.
Qed.

Lemma min_from_ints (zs : list Z) : ∀ c,
  min_from (Int c) (Int <$> zs) = Int (fold_left Z.min zs c).
Proof.
  induction zs as [|z zs IH]; intros c; simpl; [done|].
  destruct (z <? c) eqn:H.
  - rewrite IH. f_equal. f_equal. apply Z.ltb_lt in H. lia.
  - rewrite IH. f_equal. f_equal. apply Z.ltb_ge in H. lia.
Qed.

(** Going down from an integer below a float stays below it. *)
Lemma int_below_float_mono (a b : Z) (f : float) :
  a ≤ b → num_lt (Int b) (Flt f) = true → num_lt (Int a) (Flt f) = true.
Proof.
  intros Hab. unfold num_lt, cmp_int_float.
  assert (Hcmp : ∀ a' b' u, a' ≤ b' →
            match b' ?= u with Lt => true | _ => false end = true →
            match a' ?= u with Lt => true | _ => false end = true).
  { intros a' b' u Hle.
    destruct (Z.compare_spec b' u), (Z.compare_spec a' u); try done; lia. }
  destruct (Prim2SF f) as [sg|sg| |sg m e]; try done.
  - now apply Hcmp.
  - destruct (0 <=? e); apply Hcmp; [done|].
    apply Z.mul_le_mono_nonneg_r; [apply Z.pow_nonneg|]; lia.
Qed.

Lemma min_below_float (zs : list Z) (f : float) : ∀ c,
  num_lt (Int (fold_left Z.min zs c)) (Flt f)
  = existsb (λ z, num_lt (Int z) (Flt f)) (c :: zs).
Proof.
  induction zs as [|z zs IH]; intros c; cbn [fold_left existsb];
    [now rewrite orb_false_r|].
  rewrite IH. cbn [existsb]. rewrite orb_assoc. f_equal.
  destruct (Z.min_spec c z) as [[Hlt ->]|[Hle ->]].
  - destruct (num_lt (Int c) (Flt f)) eqn:Hc; [done|]. simpl.
    destruct (num_lt (Int z) (Flt f)) eqn:Hz; [|done].
    rewrite (int_below_float_mono c z f) in Hc by (lia || done). done.
  - destruct (num_lt (Int z) (Flt f)) eqn:Hz; [now rewrite orb_true_r|].
    rewrite orb_false_r.
    destruct (num_lt (Int c) (Flt f)) eqn:Hc; [|done].
    rewrite (int_below_float_mono z c f) in Hz by (lia || done). done.
Qed.

(** For a series of integers the lower Y bound is kept exactly when no item
    is below it: with a lower bound [lo] and no upper bound, a returning
    [add_y_data] leaves [lo] in place if every item is [>= lo] and unsets it
    if some item is [< lo]. *)
Theorem add_y_data_retracts_lower_bound
    (k : seq_kind) (zs : list Z) (t : option string)
    (s s' : SimplePlot) (lo : float) :
  __y_limits s = (Some lo, None) →
  add_y_data float_repr (PySeq k (Int <$> zs)) (Some (text t)) s = (Ok (), s') →
  __y_limits s'
  = (if existsb (λ z, num_lt (Int z) (Flt lo)) zs then None else Some lo, None).
Proof.
  intros Hlim E.
  destruct (add_y_data_lower_bound _ _ s s' lo Hlim E) as (ys & m & [= <-] & Hm & ->).
  destruct zs as [|c zs]; [discriminate Hm|].
  simpl in Hm. injection Hm as <-.
  now rewrite min_from_ints, min_below_float.
Qed.





End Accumulating.


(** ** The other calls *)

Section Setting.
Variable float_of_str : string → option float.
Variable float_repr : float → string.

Lemma plain_setters_raise_unchanged s :
  (∀ v, match set_dpi float_of_str v s with
        | (Raise _, s') => s' = s | (Ok _, _) => True end) ∧
  (∀ c st, match set_grid c st s with
           | (Raise _, s') => s' = s | (Ok _, _) => True end) ∧
  (∀ l, match set_x_label float_repr l s with
        | (Raise _, s') => s' = s | (Ok _, _) => True end) ∧
  (∀ l, match set_y_label float_repr l s with
        | (Raise _, s') => s' = s | (Ok _, _) => True end) ∧
  (∀ a b, match set_x_limits float_of_str a b s with
          | (Raise _, s') => s' = s | (Ok _, _) => True end) ∧
  (∀ a b, match set_y_limits float_of_str a b s with
          | (Raise _, s') => s' = s | (Ok _, _) => True end) ∧
  (∀ x y, match set_log_scale x y s with
          | (Raise _, s') => s' = s | (Ok _, _) => True end).
Proof.
  repeat split; intros;
    unfold set_dpi, set_grid, set_x_label, set_y_label, convert_label,
      set_x_limits, set_y_limits, coerce_bound, set_log_scale;
    run_cases; done.
Qed.

(** A call that sets the resolution, the grid, a label, bounds or the scale
    and raises has changed nothing: neither the builder nor the record of
    outside calls. *)
Theorem plain_setters_are_atomic
    (c : call) (w w' : SimplePlot * list event) (e : exn) :
  is_plain_setter c = true →
  exec float_of_str float_repr c w = (Raise e, w') →
  w' = w.
Proof.
  destruct w as [s tr].
  destruct (plain_setters_raise_unchanged s)
    as (Hdpi & Hgrid & Hxl & Hyl & Hxlim & Hylim & Hlog).
  destruct c as [v|c st|l|l|a b|a b|f| | | |x y|]; try discriminate;
    intros _; unfold exec, on_fst; cbn [fst snd].
  - specialize (Hdpi v). destruct (set_dpi _ v s) as [[[]|e'] s']; [done|].
    now intros [= _ <-]; subst.
  - specialize (Hgrid c st). destruct (set_grid c st s) as [[[]|e'] s']; [done|].
    now intros [= _ <-]; subst.
  - specialize (Hxl l). destruct (set_x_label _ l s) as [[[]|e'] s']; [done|].
    now intros [= _ <-]; subst.
  - specialize (Hyl l). destruct (set_y_label _ l s) as [[[]|e'] s']; [done|].
    now intros [= _ <-]; subst.
  - specialize (Hxlim a b).
    destruct (set_x_limits _ a b s) as [[[]|e'] s']; [done|].
    now intros [= _ <-]; subst.
  - specialize (Hylim a b).
    destruct (set_y_limits _ a b s) as [[[]|e'] s']; [done|].
    now intros [= _ <-]; subst.
  - specialize (Hlog x y). destruct (set_log_scale x y s) as [[[]|e'] s']; [done|].
    now intros [= _ <-]; subst.
Qed.

Lemma add_y_sets_loop_unlabelled (ys : list pyobj) : ∀ (py : list pyobj) s,
  for_each (seq (length py) (length ys)) (λ i,
    label ← ret PyNone;
    y ← index (py ++ ys) i;
    add_y_data float_repr y (Some label)) s
  = for_each ys (λ y, add_y_data float_repr y None) s.
Proof.
  induction ys as [|y ys IH]; intros py s; [reflexivity|].
  simpl. rewrite !bind_unfold. unfold ret at 1. cbn iota beta.
  rewrite (index_middle py ys y (length py) eq_refl), bind_ret.
  change (add_y_data float_repr y (Some PyNone) s)
    with (add_y_data float_repr y None s).
  destruct (add_y_data float_repr y None s) as [[[]|e] s1]; [|reflexivity].
  specialize (IH (py ++ [y]) s1).
  rewrite length_app, <- app_assoc in IH. simpl in IH.
  replace (length py + 1)%nat with (S (length py)) in IH by lia.
  exact IH.
Qed.

(** Without labels, left out or [None], [add_y_sets] is one [add_y_data]
    without label per entry, in order, stopping at the first that raises. *)
Theorem add_y_sets_without_labels
    (y_list : pyarg) (ys : list pyobj) (s : SimplePlot) :
  arg_as_sequence y_list = Some ys →
  add_y_sets float_repr y_list None s
  = for_each ys (λ y, add_y_data float_repr y None) s ∧
  add_y_sets float_repr y_list (Some (Obj PyNone)) s
  = for_each ys (λ y, add_y_data float_repr y None) s.
Proof.
  intros Hy. unfold add_y_sets. rewrite Hy. unfold kwarg. simpl.
  rewrite !bind_unfold. unfold ret at 1 3. cbn iota beta. unfold range.
  split; apply (add_y_sets_loop_unlabelled ys []).
Qed.

(** [add_y_sets] checks its arguments before it adds anything: a [y_list]
    that is no list or tuple, labels that are neither [None] nor a list or
    tuple, and labels of another length than [y_list] each raise a
    [RuntimeError] and leave the builder as it was. *)
Theorem add_y_sets_rejects_arguments
    (y_list y_labels : pyarg) (s : SimplePlot) :
  match arg_as_sequence y_list, arg_as_sequence y_labels with
  | None, _ => True
  | Some _, None => arg_is_none y_labels = false
  | Some ys, Some ls => length ls ≠ length ys
  end →
  add_y_sets float_repr y_list (Some y_labels) s
  = (Raise (RuntimeError
              match arg_as_sequence y_list, arg_as_sequence y_labels with
              | None, _ => YListNotSequence
              | Some _, None => YLabelsNotSequence
              | Some _, Some _ => YLabelsCount
              end), s).
Proof.
  unfold add_y_sets, kwarg. simpl.
  destruct (arg_as_sequence y_list) as [ys|]; [|reflexivity].
  destruct (arg_as_sequence y_labels) as [ls|] eqn:Hl.
  - intros Hne. rewrite bind_unfold.
    assert (arg_is_none y_labels = false) as ->
      by (destruct y_labels as [[]|]; try discriminate Hl; reflexivity).
    simpl. rewrite bind_unfold. unfold when.
    apply Nat.eqb_neq in Hne. now rewrite Hne.
  - intros ->. simpl. reflexivity.
Qed.

End Setting.

(** ** Parent directories *)





(** ** Instances of the further properties *)


Lemma no_x_limits_instance :
  __x_limits (session sample_float_of_str sample_float_repr
                [SetXLimits (Some (PyNum (Int 1))) (Some (PyNum (Int 5)));
                 SetXData (PySeq KList [Int 0; Int 9]);
                 SetLogScale (Some (PyBool true)) None;
                 SetXLimits (Some (PyNum (Int 1))) None]
                (blank_plot, [])).1
  = (None, None).
Proof.
  exact (session_never_sets_x_limits sample_float_of_str sample_float_repr
           None blank_plot _ eq_refl).
Defined.

Lemma dpi_instance :
  match __dpi (session sample_float_of_str sample_float_repr
                 [SetDpi (PyNum (Int 0));
                  SetDpi (PyStr "300");
                  SetDpi (PyNum (Flt (-1)%float));
                  SetDpi (PyStr "nan")]
                 (blank_plot, [])).1 with
  | Int z => 0 < z
  | Flt f => (f <=? 0)%float = false
  end.
Proof.
  exact (session_keeps_dpi_off_nonpositive sample_float_of_str
           sample_float_repr None blank_plot
           [SetDpi (PyNum (Int 0));
            SetDpi (PyStr "300");
            SetDpi (PyNum (Flt (-1)%float));
            SetDpi (PyStr "nan")]
           eq_refl).
Defined.

Lemma set_x_data_instance :
  let s := with_y_data [PySeq KList [Int 3; Int 4]]
             (with_legend [None] blank_plot) in
  set_x_data (PySeq KTuple [Int 0; Int 1]) s
  = (Ok (), with_x_data (Some (PySeq KTuple [Int 0; Int 1])) s) ∧
  ∃ site, set_x_data (PySeq KTuple [Int 0]) s = (Raise (RuntimeError site), s).
Proof.
  cbv zeta. split.
  - apply (set_x_data_succeeds_iff (PySeq KTuple [Int 0; Int 1])
             (with_y_data [PySeq KList [Int 3; Int 4]]
                (with_legend [None] blank_plot)));
      [reflexivity | repeat constructor; discriminate].
  - apply (set_x_data_succeeds_iff (PySeq KTuple [Int 0])
             (with_y_data [PySeq KList [Int 3; Int 4]]
                (with_legend [None] blank_plot)));
      [reflexivity | repeat constructor; discriminate].
Defined.

Lemma retracts_lower_bound_instance :
  __y_limits
    (state_of (add_y_data sample_float_repr (PySeq KList [Int 3; Int (-1)])
                 (Some PyNone) blank_plot))
  = (None, None) ∧
  __y_limits
    (state_of (add_y_data sample_float_repr (PySeq KList [Int 3; Int 0])
                 (Some PyNone) blank_plot))
  = (Some 0%float, None).
Proof.
  split.
  - apply (add_y_data_retracts_lower_bound sample_float_repr KList [3; -1] None
             blank_plot _ 0%float); reflexivity.
  - apply (add_y_data_retracts_lower_bound sample_float_repr KList [3; 0] None
             blank_plot _ 0%float); reflexivity.
Defined.



Lemma atomic_instance :
  let w := (with_log_x true blank_plot, [PltShow]) in
  state_of (exec sample_float_of_str sample_float_repr
              (SetYLimits (Some (PyNum (Int 1))) (Some (PyStr "high"))) w) = w ∧
  state_of (exec sample_float_of_str sample_float_repr
              (SetXLimits (Some (PyNum (Int 1))) None) w) = w.
Proof.
  cbv zeta. split.
  - apply (plain_setters_are_atomic sample_float_of_str sample_float_repr
             (SetYLimits (Some (PyNum (Int 1))) (Some (PyStr "high")))
             (with_log_x true blank_plot, [PltShow]) _ ValueError);
      reflexivity.
  - apply (plain_setters_are_atomic sample_float_of_str sample_float_repr
             (SetXLimits (Some (PyNum (Int 1))) None)
             (with_log_x true blank_plot, [PltShow]) _
             (RuntimeError LogLimits));
      reflexivity.
Defined.

Lemma without_labels_instance :
  let ys := [PySeq KList [Int 1; Int 2]; PySeq KTuple [Int 3]] in
  add_y_sets sample_float_repr (ObjSeq KTuple ys) None blank_plot
  = for_each ys (λ y, add_y_data sample_float_repr y None) blank_plot ∧
  add_y_sets sample_float_repr (ObjSeq KTuple ys) (Some (Obj PyNone)) blank_plot
  = for_each ys (λ y, add_y_data sample_float_repr y None) blank_plot.
Proof.
  exact (add_y_sets_without_labels sample_float_repr
           (ObjSeq KTuple [PySeq KList [Int 1; Int 2]; PySeq KTuple [Int 3]])
           _ blank_plot eq_refl).
Defined.

Lemma rejects_arguments_instance :
  add_y_sets sample_float_repr
    (ObjSeq KList [PySeq KList [Int 1]; PySeq KList [Int 2]])
    (Some (ObjSeq KList [PyStr "only one"])) blank_plot
  = (Raise (RuntimeError YLabelsCount), blank_plot) ∧
  add_y_sets sample_float_repr
    (ObjSeq KList [PySeq KList [Int 1]]) (Some (Obj (PyStr "a"))) blank_plot
  = (Raise (RuntimeError YLabelsNotSequence), blank_plot).
Proof.
  split.
  - apply (add_y_sets_rejects_arguments sample_float_repr
             (ObjSeq KList [PySeq KList [Int 1]; PySeq KList [Int 2]])
             (ObjSeq KList [PyStr "only one"]) blank_plot).
    simpl. lia.
  - apply (add_y_sets_rejects_arguments sample_float_repr
             (ObjSeq KList [PySeq KList [Int 1]]) (Obj (PyStr "a")) blank_plot).
    reflexivity.
Defined.


Lemma refuses_bad_destination_instance :
  let s := with_x_data (Some (PySeq KList [Int 0; Int 1])) blank_plot in
  let read_only := {| OsPath.exists_ := λ _, false;
                      OsPath.isfile := λ _, false;
                      OsPath.access_W_OK := λ _, false |} in
  (∃ queries,
     create read_only (Some (PyStr "out/plot.png")) (s, [])
     = (Raise (RuntimeError NotWritable), (s, [] ++ queries)) ∧
     forallb is_os_query queries = true) ∧
  (∃ queries,
     create empty_fs (Some (PyNum (Int 7))) (s, [])
     = (Raise (RuntimeError BadFilenameType), (s, [] ++ queries)) ∧
     forallb is_os_query queries = true).
Proof.
  cbv zeta. split.
  - apply (create_refuses_bad_destination _ (PyStr "out/plot.png")
             (PySeq KList [Int 0; Int 1])
             (with_x_data (Some (PySeq KList [Int 0; Int 1])) blank_plot) []);
      [reflexivity | reflexivity | split; reflexivity].
  - apply (create_refuses_bad_destination empty_fs (PyNum (Int 7))
             (PySeq KList [Int 0; Int 1])
             (with_x_data (Some (PySeq KList [Int 0; Int 1])) blank_plot) []);
      [reflexivity | reflexivity | exact I].
Defined.

Lemma create_settles_instance :
  let s := with_x_data (Some (PySeq KList [Int 0; Int 1]))
             (with_y_data [PySeq KList [Int 2; Int 3]]
                (with_legend [None] blank_plot)) in
  let s' := (state_of (create empty_fs None (s, []))).1 in
  __legend s' = [Some ""%string] ∧
  (state_of (create empty_fs (Some (PyStr "plot.png")) (s', []))).1 = s'.
Proof.
  cbv zeta. split; [reflexivity|].
  set (s := with_x_data (Some (PySeq KList [Int 0; Int 1]))
              (with_y_data [PySeq KList [Int 2; Int 3]]
                 (with_legend [None] blank_plot))).
  apply (create_settles empty_fs empty_fs None (Some (PyStr "plot.png"))
           s (state_of (create empty_fs None (s, []))).1
           [] (state_of (create empty_fs None (s, []))).2 []).
  reflexivity.
Defined.
